(** * Snapshot manifest generation ([scripts/generate_manifest.py])

    A shallow embedding of the manifest generator of the repository and the
    properties of it that the specification states: header parsing
    ([parse_cbor_header]), the streaming digest ([compute_sha256]), the
    file-name convention ([derive_from_filename]) and the assembly of the
    manifest ([generate_manifest]).

    Python values are modelled by the inductive type [pyval]; a Python [str]
    is a [string] whose characters are read as the code points U+0000 to
    U+00FF; [bytes] is a [list byte]; exceptions are an explicit result
    type.  The two libraries the script calls are modelled as follows:
    [hashlib.sha256] by SHA-256 itself (FIPS 180-4), and [cbor2.load] by a
    parameter of the model, instantiated where a concrete file is evaluated
    by a decoder for the definite-length fragment of RFC 8949. *)

From Stdlib Require Import ZArith List String Ascii Bool Lia.
From Stdlib Require Import Init.Byte.
From Equations Require Import Equations.
Import ListNotations.

Local Open Scope string_scope.
Local Open Scope list_scope.
Local Open Scope Z_scope.

(* ------------------------------------------------------------------ *)
(** * Python values, truthiness and exceptions *)

Module Py.

(** The values [cbor2.load] returns on the data the script is meant for,
    and the values the script builds. *)
#[warnings="-register-all"]
Inductive pyval : Type :=
| PNone
| PBool (b : bool)
| PInt (n : Z)
| PBytes (bs : list byte)
| PStr (s : string)
| PList (xs : list pyval)
| PDict (kvs : list (pyval * pyval)).

(** The exceptions that can leave the functions of the script. *)
Inductive exn : Type :=
| FileNotFoundError
| PermissionError
| AttributeError
| TypeError
| KeyError.

(** A computation returns a value or raises. *)
Inductive res (A : Type) : Type :=
| Ok (a : A)
| Raise (e : exn).

Arguments Ok {A} a.
Arguments Raise {A} e.

Definition bind {A B : Type} (m : res A) (k : A -> res B) : res B :=
  match m with
  | Ok a => k a
  | Raise e => Raise e
  end.

Definition raises {A : Type} (m : res A) : bool :=
  match m with
  | Ok _ => false
  | Raise _ => true
  end.

(** Python's truth-value protocol ([bool(x)], used by [not], [or]). *)
Class Truthy (A : Type) : Type := truthy : A -> bool.

#[export] Instance Truthy_Z : Truthy Z := fun n => negb (n =? 0).

#[export] Instance Truthy_string : Truthy string :=
  fun s => match s with EmptyString => false | String _ _ => true end.

#[export] Instance Truthy_list {A : Type} : Truthy (list A) :=
  fun l => match l with [] => false | _ :: _ => true end.

#[export] Instance Truthy_pyval : Truthy pyval :=
  fun v =>
    match v with
    | PNone => false
    | PBool b => b
    | PInt n => truthy n
    | PBytes bs => truthy bs
    | PStr s => truthy s
    | PList xs => truthy xs
    | PDict kvs => truthy kvs
    end.

(** [a or b]. *)
Definition por {A : Type} `{Truthy A} (a b : A) : A :=
  if truthy a then a else b.

(** Equality of dictionary keys.  [False == 0] and [True == 1] in Python,
    so a key [False] answers a lookup of [0].  A container used as a key
    (cbor2 yields tuples and frozen maps there) never equals one of the
    integer or string keys the script looks up. *)
Definition int_of_bool (b : bool) : Z := if b then 1 else 0.

Definition key_eqb (k1 k2 : pyval) : bool :=
  match k1, k2 with
  | PNone, PNone => true
  | PBool b1, PBool b2 => Bool.eqb b1 b2
  | PBool b, PInt n | PInt n, PBool b => int_of_bool b =? n
  | PInt n1, PInt n2 => n1 =? n2
  | PStr s1, PStr s2 => String.eqb s1 s2
  | PBytes b1, PBytes b2 =>
      if list_eq_dec Byte.byte_eq_dec b1 b2 then true else false
  | _, _ => false
  end.

(** [d.get(k)] on the entries of a dict; [None] when the key is absent. *)
Fixpoint dict_find (kvs : list (pyval * pyval)) (k : pyval) : option pyval :=
  match kvs with
  | [] => None
  | (k', v) :: rest => if key_eqb k' k then Some v else dict_find rest k
  end.

(** [d.get(k, default)]. *)
Definition dict_get (kvs : list (pyval * pyval)) (k default : pyval) : pyval :=
  match dict_find kvs k with
  | Some v => v
  | None => default
  end.

(** [d[k]]: raises [KeyError] when the key is absent, [TypeError] when [d]
    is not subscriptable by a string. *)
Definition getitem (d : pyval) (k : string) : res pyval :=
  match d with
  | PDict kvs =>
      match dict_find kvs (PStr k) with
      | Some v => Ok v
      | None => Raise KeyError
      end
  | _ => Raise TypeError
  end.


(** [x > 0] for a decoded value: integers compare (a bool is an integer),
    every other type raises [TypeError]. *)
Definition gt0 (v : pyval) : res bool :=
  match v with
  | PInt n => Ok (0 <? n)
  | PBool b => Ok (0 <? int_of_bool b)
  | _ => Raise TypeError
  end.

(** ** Strings *)

Definition code (c : ascii) : Z := Z.of_N (N_of_ascii c).

Definition chr (n : Z) : ascii := ascii_of_N (Z.to_N n).

(** [str.lower] on U+0000..U+00FF: the letters A-Z, and the capital
    letters of Latin-1 (U+00C0..U+00DE but the multiplication sign). *)
Definition lower_char (c : ascii) : ascii :=
  let n := code c in
  if ((65 <=? n) && (n <=? 90)) ||
     ((192 <=? n) && (n <=? 222) && negb (n =? 215))
  then chr (n + 32) else c.

Fixpoint lower (s : string) : string :=
  match s with
  | EmptyString => EmptyString
  | String c s' => String (lower_char c) (lower s')
  end.

Fixpoint str_all (p : ascii -> bool) (s : string) : bool :=
  match s with
  | EmptyString => true
  | String c s' => p c && str_all p s'
  end.

(** [s.split(sep)] for a one-character separator. *)
Fixpoint split (sep : ascii) (s : string) : list string :=
  match s with
  | EmptyString => [EmptyString]
  | String c s' =>
      if Ascii.eqb c sep then EmptyString :: split sep s'
      else match split sep s' with
           | p :: ps => String c p :: ps
           | [] => [String c EmptyString]
           end
  end.

(** ** [int(s)] for a string

    CPython first turns Unicode white space outside ASCII into a blank
    (U+0085 and U+00A0 in this range) and any other character from U+007F
    on into an invalid one; it then skips white space (blank and
    U+0009..U+000D), reads an optional sign and decimal digits, between
    which single underscores may stand, and skips white space to the end.
    More than 4300 digits are refused. *)
Definition is_space (c : ascii) : bool :=
  let n := code c in
  ((9 <=? n) && (n <=? 13)) || (n =? 32) || (n =? 133) || (n =? 160).

Definition digit_of (c : ascii) : option Z :=
  let n := code c in
  if (48 <=? n) && (n <=? 57) then Some (n - 48) else None.

Definition int_max_str_digits : nat := 4300.

Fixpoint lstrip (s : string) : string :=
  match s with
  | String c s' => if is_space c then lstrip s' else s
  | EmptyString => EmptyString
  end.

(** The digits of the literal: [acc] is the value read so far, [count]
    the number of digits read, [after_digit] whether the previous
    character was a digit. *)
Fixpoint int_digits (s : string) (acc : Z) (count : nat) (after_digit : bool)
  : option (Z * nat) :=
  match s with
  | EmptyString => if after_digit then Some (acc, count) else None
  | String c s' =>
      match digit_of c with
      | Some d => int_digits s' (10 * acc + d) (S count) true
      | None =>
          if Ascii.eqb c "_" then
            if after_digit then int_digits s' acc count false else None
          else if after_digit && str_all is_space s then Some (acc, count)
          else None
      end
  end.

Definition int_of_str (s : string) : option Z :=
  let s1 := lstrip s in
  let '(sign, s2) :=
    match s1 with
    | String "+" t => (1, t)
    | String "-" t => (-1, t)
    | _ => (1, s1)
    end in
  match int_digits s2 0 0 false with
  | Some (n, count) =>
      if Nat.leb count int_max_str_digits then Some (sign * n) else None
  | None => None
  end.

(** ** Hexadecimal *)

Definition hex_digit (n : Z) : ascii :=
  if n <? 10 then chr (48 + n) else chr (87 + n).

(** A character of [0-9a-f]. *)
Definition is_lower_hex (c : ascii) : bool :=
  let n := code c in
  ((48 <=? n) && (n <=? 57)) || ((97 <=? n) && (n <=? 102)).

(** A character of ['0123456789abcdefABCDEF']. *)
Definition is_hex (c : ascii) : bool :=
  is_lower_hex c || ((65 <=? code c) && (code c <=? 70)).

Definition byte_val (b : byte) : Z := Z.of_N (Byte.to_N b).

(** [bytes.hex]: two lower-case digits a byte. *)
Fixpoint bytes_hex (bs : list byte) : string :=
  match bs with
  | [] => EmptyString
  | b :: rest =>
      String (hex_digit (byte_val b / 16))
        (String (hex_digit (byte_val b mod 16)) (bytes_hex rest))
  end.

(** [x.hex()] for a decoded value: only [bytes] has the method. *)
Definition hex_method (v : pyval) : res string :=
  match v with
  | PBytes bs => Ok (bytes_hex bs)
  | _ => Raise AttributeError
  end.

End Py.

Export Py.

Notation "x <- m ;; k" := (bind m (fun x => k))
  (at level 61, m at next level, right associativity).

(* ------------------------------------------------------------------ *)
(** * [hashlib.sha256]

    SHA-256 as FIPS 180-4 defines it, on 32-bit words held in [Z].  A hash
    object is the sequence of bytes it has been fed: [update] appends, and
    [hexdigest] hashes what was fed, which is how the library documents
    repeated calls of [update]. *)

Module hashlib.

Definition w32 (x : Z) : Z := x mod 2 ^ 32.

Definition add32 (x y : Z) : Z := w32 (x + y).

Definition rotr (n x : Z) : Z :=
  Z.lor (Z.shiftr x n) (w32 (Z.shiftl x (32 - n))).

Definition not32 (x : Z) : Z := Z.lxor x 0xffffffff.

Definition Ch (x y z : Z) : Z := Z.lxor (Z.land x y) (Z.land (not32 x) z).

Definition Maj (x y z : Z) : Z :=
  Z.lxor (Z.lxor (Z.land x y) (Z.land x z)) (Z.land y z).

Definition Sigma0 (x : Z) : Z :=
  Z.lxor (Z.lxor (rotr 2 x) (rotr 13 x)) (rotr 22 x).

Definition Sigma1 (x : Z) : Z :=
  Z.lxor (Z.lxor (rotr 6 x) (rotr 11 x)) (rotr 25 x).

Definition sigma0 (x : Z) : Z :=
  Z.lxor (Z.lxor (rotr 7 x) (rotr 18 x)) (Z.shiftr x 3).

Definition sigma1 (x : Z) : Z :=
  Z.lxor (Z.lxor (rotr 17 x) (rotr 19 x)) (Z.shiftr x 10).

(** The constants of the standard are defined from the first primes: the
    round constants are the first 32 bits of the fractional parts of the
    cube roots of the first 64 primes, the initial hash value those of the
    square roots of the first 8. *)
Definition is_prime (n : nat) : bool :=
  forallb (fun d => negb (Nat.eqb (Nat.modulo n d) 0)) (seq 2 (n - 2)).

Definition primes : list Z := map Z.of_nat (filter is_prime (seq 2 310)).

(** The integer cube root, by bisection: [lo ^ 3 <= n < hi ^ 3]. *)
Fixpoint cube_root (steps : nat) (lo hi n : Z) : Z :=
  match steps with
  | O => lo
  | S steps' =>
      let mid := (lo + hi) / 2 in
      if mid * mid * mid <=? n then cube_root steps' mid hi n
      else cube_root steps' lo mid n
  end.

Definition K : list Z :=
  map (fun p => w32 (cube_root 36 0 (2 ^ 36) (p * 2 ^ 96))) primes.

(** The eight working variables, and the hash value between blocks. *)
Record regs : Type := Regs {
  ra : Z; rb : Z; rc : Z; rd : Z; re : Z; rf : Z; rg : Z; rh : Z
}.

Definition frac_sqrt (i : nat) : Z :=
  w32 (Z.sqrt (nth i primes 0 * 2 ^ 64)).

Definition H0 : regs :=
  Regs (frac_sqrt 0) (frac_sqrt 1) (frac_sqrt 2) (frac_sqrt 3)
       (frac_sqrt 4) (frac_sqrt 5) (frac_sqrt 6) (frac_sqrt 7).

(** The message with its padding: a one bit, zeros up to 56 modulo 64
    bytes, and the length in bits on 64 bits, as byte values. *)
Definition be_bytes (width : nat) (n : Z) : list Z :=
  map (fun i => Z.shiftr n (8 * Z.of_nat (width - 1 - i)) mod 256)
      (seq 0 width).

Definition pad (msg : list Z) : list Z :=
  let len := Z.of_nat (List.length msg) in
  let zeros := Z.to_nat ((55 - len) mod 64) in
  msg ++ [128] ++ repeat 0 zeros ++ be_bytes 8 (8 * len).

(** Big-endian 32-bit words of a byte sequence. *)
Fixpoint words (bs : list Z) : list Z :=
  match bs with
  | b0 :: b1 :: b2 :: b3 :: rest =>
      (((b0 * 256 + b1) * 256 + b2) * 256 + b3) :: words rest
  | _ => []
  end.

(** The message schedule: [extend n ws] appends [n] words to the sixteen
    (or more) words [ws], each from the last sixteen. *)
Fixpoint extend (n : nat) (ws : list Z) : list Z :=
  match n with
  | O => ws
  | S n' =>
      let t := List.length ws in
      let at_ (back : nat) := nth (t - back) ws 0 in
      extend n'
        (ws ++ [add32 (add32 (sigma1 (at_ 2%nat)) (at_ 7%nat))
                      (add32 (sigma0 (at_ 15%nat)) (at_ 16%nat))])
  end.

Definition round (r : regs) (kw : Z * Z) : regs :=
  let '(k, w) := kw in
  let t1 :=
    add32 (add32 (add32 (rh r) (Sigma1 (re r))) (Ch (re r) (rf r) (rg r)))
          (add32 k w) in
  let t2 := add32 (Sigma0 (ra r)) (Maj (ra r) (rb r) (rc r)) in
  Regs (add32 t1 t2) (ra r) (rb r) (rc r) (add32 (rd r) t1)
       (re r) (rf r) (rg r).

(** One 64-byte block, given as its sixteen words. *)
Definition compress (h : regs) (block : list Z) : regs :=
  let r := fold_left round (combine K (extend 48 block)) h in
  Regs (add32 (ra h) (ra r)) (add32 (rb h) (rb r))
       (add32 (rc h) (rc r)) (add32 (rd h) (rd r))
       (add32 (re h) (re r)) (add32 (rf h) (rf r))
       (add32 (rg h) (rg r)) (add32 (rh h) (rh r)).

(** The blocks of a padded message; [n] bounds their number. *)
Fixpoint blocks (n : nat) (h : regs) (ws : list Z) : regs :=
  match n, ws with
  | S n', _ :: _ => blocks n' (compress h (firstn 16 ws)) (skipn 16 ws)
  | _, _ => h
  end.

Definition sha256_regs (msg : list byte) : regs :=
  let ws := words (pad (map byte_val msg)) in
  blocks (List.length ws) H0 ws.

(** Eight hexadecimal digits of a word, most significant first. *)
Definition hex32 (x : Z) : list ascii :=
  map (fun i => hex_digit (Z.shiftr x (4 * Z.of_nat (7 - i)) mod 16))
      (seq 0 8).

Definition regs_hex (r : regs) : string :=
  string_of_list_ascii
    (List.concat (map hex32 [ra r; rb r; rc r; rd r; re r; rf r; rg r; rh r])).

(** The hash object: the bytes fed so far. *)
Record sha256 : Type := Hasher { fed : list byte }.

(** [hashlib.sha256()]. *)
Definition new : sha256 := Hasher [].

(** [hasher.update(chunk)]. *)
Definition update (hasher : sha256) (chunk : list byte) : sha256 :=
  Hasher (fed hasher ++ chunk).

(** [hasher.hexdigest()]. *)
Definition hexdigest (hasher : sha256) : string :=
  regs_hex (sha256_regs (fed hasher)).

End hashlib.

(* ------------------------------------------------------------------ *)
(** * [cbor2.load] on the definite-length fragment

    The model of the script takes the decoder as a parameter, and the
    general theorems hold for any decoder.  Where a concrete file is
    evaluated, the parameter is this decoder of RFC 8949 for unsigned and
    negative integers, byte strings, ASCII text strings, arrays and maps of
    definite length, and the simple values false, true and null.  Like
    [cbor2.load] it reads one item and leaves what follows it unread, and
    an empty or truncated input is an error.  Tags, floats and
    indefinite lengths are outside the fragment and are reported as errors
    here. *)

Module cbor2.

Definition take (n : Z) (bs : list byte) : option (list byte * list byte) :=
  if n <=? Z.of_nat (List.length bs)
  then Some (firstn (Z.to_nat n) bs, skipn (Z.to_nat n) bs)
  else None.

Definition be_value (bs : list byte) : Z :=
  fold_left (fun acc b => acc * 256 + byte_val b) bs 0.

(** The argument of an initial byte: the additional information itself
    below 24, else the next 1, 2, 4 or 8 bytes. *)
Definition argument (info : Z) (bs : list byte) : option (Z * list byte) :=
  if info <? 24 then Some (info, bs)
  else if info <=? 27 then
    match take (2 ^ (info - 24)) bs with
    | Some (a, rest) => Some (be_value a, rest)
    | None => None
    end
  else None.

(** A Python dict keeps the place of a key that is set again. *)
Fixpoint dict_set (kvs : list (pyval * pyval)) (k v : pyval)
  : list (pyval * pyval) :=
  match kvs with
  | [] => [(k, v)]
  | (k', v') :: rest =>
      if key_eqb k' k then (k', v) :: rest else (k', v') :: dict_set rest k v
  end.

Fixpoint pairs (xs : list pyval) (acc : list (pyval * pyval))
  : list (pyval * pyval) :=
  match xs with
  | k :: v :: rest => pairs rest (dict_set acc k v)
  | _ => acc
  end.

Definition is_ascii (b : byte) : bool := byte_val b <? 128.

Fixpoint decode (fuel : nat) (bs : list byte) : option (pyval * list byte) :=
  match fuel, bs with
  | S fuel', b :: bs1 =>
      let major := byte_val b / 32 in
      let info := byte_val b mod 32 in
      if major =? 7 then
        if info =? 20 then Some (PBool false, bs1)
        else if info =? 21 then Some (PBool true, bs1)
        else if info =? 22 then Some (PNone, bs1)
        else None
      else
        match argument info bs1 with
        | None => None
        | Some (arg, bs2) =>
            if major =? 0 then Some (PInt arg, bs2)
            else if major =? 1 then Some (PInt (-1 - arg), bs2)
            else if major =? 2 then
              match take arg bs2 with
              | Some (s, rest) => Some (PBytes s, rest)
              | None => None
              end
            else if major =? 3 then
              match take arg bs2 with
              | Some (s, rest) =>
                  if forallb is_ascii s
                  then Some (PStr (string_of_list_byte s), rest)
                  else None
              | None => None
              end
            else if major =? 4 then
              match decode_seq fuel' (Z.to_nat arg) bs2 with
              | Some (xs, rest) => Some (PList xs, rest)
              | None => None
              end
            else if major =? 5 then
              match decode_seq fuel' (Z.to_nat (2 * arg)) bs2 with
              | Some (xs, rest) => Some (PDict (pairs xs []), rest)
              | None => None
              end
            else None
        end
  | _, _ => None
  end
with decode_seq (fuel : nat) (n : nat) (bs : list byte)
  : option (list pyval * list byte) :=
  match fuel with
  | O => None
  | S fuel' =>
      match n with
      | O => Some ([], bs)
      | S n' =>
          match decode fuel' bs with
          | Some (x, rest) =>
              match decode_seq fuel' n' rest with
              | Some (xs, rest') => Some (x :: xs, rest')
              | None => None
              end
          | None => None
          end
      end
  end.

(** [cbor2.load(f)]: [None] when the decoder raises.  Every item takes a
    byte at least, so twice the length of the input bounds the calls. *)
Definition load (f : list byte) : option pyval :=
  match decode (2 * List.length f + 2) f with
  | Some (v, _) => Some v
  | None => None
  end.

End cbor2.

(* ------------------------------------------------------------------ *)
(** * Files and the clock *)

(** What the file system holds at a path. *)
Inductive file_state : Type :=
| Missing
| Unreadable (size : Z)
| Readable (content : list byte).

(** A [pathlib.Path]: its final component, and the file it leads to. *)
Record Path : Type := {
  name : string;
  file : file_state
}.

(** [p.exists()]. *)
Definition exists_ (p : Path) : bool :=
  match file p with
  | Missing => false
  | _ => true
  end.

(** [p.stat().st_size]. *)
Definition st_size (p : Path) : Z :=
  match file p with
  | Missing => 0
  | Unreadable size => size
  | Readable content => Z.of_nat (List.length content)
  end.

(** [open(p, 'rb')]: the bytes the file object has still to deliver. *)
Definition open_rb (p : Path) : res (list byte) :=
  match file p with
  | Missing => Raise FileNotFoundError
  | Unreadable _ => Raise PermissionError
  | Readable content => Ok content
  end.

(** [f.read(n)]: at most [n] bytes, or all of them for a negative [n];
    the chunk, and the file object after the read. *)
Definition read (n : Z) (f : list byte) : list byte * list byte :=
  if n <? 0 then (f, [])
  else (firstn (Z.to_nat n) f, skipn (Z.to_nat n) f).

(** [datetime.now(timezone.utc)]. *)
Record datetime : Type := {
  year : Z; month : Z; day : Z; hour : Z; minute : Z; second : Z
}.

(** The fields [datetime] allows, with a year of four digits. *)
Definition datetime_ok (t : datetime) : bool :=
  (1000 <=? year t) && (year t <=? 9999) &&
  (1 <=? month t) && (month t <=? 12) &&
  (1 <=? day t) && (day t <=? 31) &&
  (0 <=? hour t) && (hour t <=? 23) &&
  (0 <=? minute t) && (minute t <=? 59) &&
  (0 <=? second t) && (second t <=? 59).

Definition digit_char (n : Z) : ascii := chr (48 + n mod 10).

(** The decimal digits of [n] before [acc]. *)
Fixpoint decimal (fuel : nat) (n : Z) (acc : string) : string :=
  match fuel with
  | O => acc
  | S fuel' =>
      let acc' := String (digit_char n) acc in
      if n <? 10 then acc' else decimal fuel' (n / 10) acc'
  end.

(** [%Y]: the year in decimal. *)
Definition fmt_Y (n : Z) : string := decimal (S (Z.to_nat n)) n "".

(** [%m], [%d], [%H], [%M], [%S]: two digits, zero-padded. *)
Definition fmt_02 (n : Z) : string :=
  String (digit_char (n / 10)) (String (digit_char n) "").

(** [t.strftime("%Y-%m-%dT%H:%M:%SZ")]. *)
Definition strftime (t : datetime) : string :=
  (fmt_Y (year t) ++ "-" ++ fmt_02 (month t) ++ "-" ++ fmt_02 (day t) ++ "T"
   ++ fmt_02 (hour t) ++ ":" ++ fmt_02 (minute t) ++ ":" ++ fmt_02 (second t)
   ++ "Z")%string.

(* ------------------------------------------------------------------ *)
(** * The script *)

Definition inspect {A : Type} (a : A) : {b : A | a = b} := exist _ a eq_refl.

(** The loop of [compute_sha256]: read a chunk, stop on an empty one,
    else feed it to the hash object.  A chunk that is not empty shortens
    what is left of the file, whatever the chunk size. *)
Equations? feed (chunk_size : Z) (f : list byte) (hasher : hashlib.sha256)
  : hashlib.sha256 by wf (List.length f) lt :=
  feed chunk_size f hasher with inspect (read chunk_size f) := {
    | exist _ ([], _) _ => hasher
    | exist _ (b :: chunk, f') e =>
        feed chunk_size f' (hashlib.update hasher (b :: chunk)) }.
Proof.
  unfold read in e.
  destruct (chunk_size <? 0).
  - inversion e; subst. simpl. lia.
  - inversion e as [[Hchunk Hrest]].
    rewrite <- (firstn_skipn (Z.to_nat chunk_size) f) at 2.
    rewrite Hchunk, length_app. simpl. lia.
Qed.

Definition default_chunk_size : Z := 16 * 1024 * 1024.

Definition compute_sha256 (file_path : Path) (chunk_size : Z) : res string :=
  f <- open_rb file_path ;;
  Ok (hashlib.hexdigest (feed chunk_size f hashlib.new)).

Definition is_none (v : pyval) : bool :=
  match v with
  | PNone => true
  | _ => false
  end.

(** [parse_cbor_header] from the decoded data on (lines 60 to 91). *)
Definition header_fields (data : pyval) : res (option pyval) :=
  match data with
  | PList xs =>
      if Z.of_nat (List.length xs) <? 2 then Ok None
      else
        let version := nth 0 xs PNone in
        let header := nth 1 xs PNone in
        match header with
        | PDict h =>
            let era := dict_get h (PInt 0) PNone in
            let block_height := dict_get h (PInt 1) PNone in
            let block_hash_bytes := dict_get h (PInt 2) PNone in
            let declared_gov_actions := dict_get h (PInt 4) (PInt 0) in
            let declared_param_sets := dict_get h (PInt 5) (PInt 0) in
            if negb (truthy era) || is_none block_height
               || negb (truthy block_hash_bytes)
            then Ok None
            else
              block_hash <- hex_method block_hash_bytes ;;
              gov <- gt0 (por declared_gov_actions (PInt 0)) ;;
              governance_present <-
                (if gov then Ok true
                 else gt0 (por declared_param_sets (PInt 0))) ;;
              Ok (Some (PDict
                [ (PStr "version", version);
                  (PStr "era", era);
                  (PStr "block_height", block_height);
                  (PStr "block_hash", PStr block_hash);
                  (PStr "governance_section_present",
                   PBool governance_present) ]))
        | _ => Ok None
        end
  | _ => Ok None
  end.

Definition size_ceiling : Z := 64 * 1024 * 1024.

(** [derive_from_filename]: [int(parts[0])] raising is the [except]
    branch. *)
Definition derive_from_filename (snapshot_path : Path)
  : option Z * option string :=
  let parts := split "." (name snapshot_path) in
  if (3 <=? Z.of_nat (List.length parts))
     && String.eqb (lower (last parts "")) "cbor"
  then
    match int_of_str (nth 0 parts "") with
    | Some slot =>
        let hash_hex := nth 1 parts "" in
        if str_all is_hex hash_hex then (Some slot, Some (lower hash_hex))
        else (None, None)
    | None => (None, None)
    end
  else (None, None).

Definition of_opt_int (o : option Z) : pyval :=
  match o with
  | Some n => PInt n
  | None => PNone
  end.

Definition of_opt_str (o : option string) : pyval :=
  match o with
  | Some s => PStr s
  | None => PNone
  end.

(** [x.lower()]: only [str] has the method. *)
Definition lower_method (v : pyval) : res pyval :=
  match v with
  | PStr s => Ok (PStr (lower s))
  | _ => Raise AttributeError
  end.

Section Script.

(** [cbor2.load] on the bytes of a file: the decoded value, or [None]
    when the decoder raises. *)
Variable cbor2_load : list byte -> option pyval.

(** The clock, read once a manifest. *)
Variable now : datetime.

Definition parse_cbor_header (file_path : Path) (size_bytes : Z)
  : res (option pyval) :=
  if size_ceiling <? size_bytes then Ok None
  else
    match open_rb file_path with
    | Raise _ => Ok None
    | Ok f =>
        match cbor2_load f with
        | None => Ok None
        | Some data => header_fields data
        end
    end.

Definition generate_manifest (snapshot_path : Path)
    (era_opt : option string) (block_hash_opt : option string)
    (block_height_opt : option Z) : res pyval :=
  if negb (exists_ snapshot_path) then Raise FileNotFoundError
  else
    let size_bytes := st_size snapshot_path in
    header <- parse_cbor_header snapshot_path size_bytes ;;
    fields <-
      match header with
      | None =>
          let '(slot_from_name, hash_from_name) :=
            derive_from_filename snapshot_path in
          let block_height :=
            por (por (of_opt_int block_height_opt) (of_opt_int slot_from_name))
                (PInt 1) in
          block_hash <-
            lower_method
              (por (por (of_opt_str block_hash_opt) (of_opt_str hash_from_name))
                   (PStr "unknown")) ;;
          let era := por (of_opt_str era_opt) (PStr "conway") in
          Ok (era, block_height, block_hash, PBool false)
      | Some header =>
          era <- getitem header "era" ;;
          block_height <- getitem header "block_height" ;;
          block_hash <- getitem header "block_hash" ;;
          governance_present <- getitem header "governance_section_present" ;;
          Ok (era, block_height, block_hash, governance_present)
      end ;;
    let '(era, block_height, block_hash, governance_present) := fields in
    sha256 <- compute_sha256 snapshot_path default_chunk_size ;;
    Ok (PDict
      [ (PStr "magic", PStr "CARDANO_SNAPSHOT");
        (PStr "version", PStr "1.0.0");
        (PStr "era", era);
        (PStr "block_height", block_height);
        (PStr "block_hash", block_hash);
        (PStr "sha256", PStr sha256);
        (PStr "created_at", PStr (strftime now));
        (PStr "size_bytes", PInt size_bytes);
        (PStr "governance_section_present", governance_present) ]).

End Script.

Definition noon : datetime :=
  {| year := 2025; month := 3; day := 9; hour := 12; minute := 0; second := 7 |}.

(** Bytes written in hexadecimal, two digits a byte. *)
Definition hex_value (c : ascii) : Z :=
  let n := code c in
  if n <=? 57 then n - 48 else if n <=? 70 then n - 55 else n - 87.

Definition byte_of_Z (n : Z) : byte :=
  match Byte.of_N (Z.to_N n) with
  | Some b => b
  | None => "000"%byte
  end.

Fixpoint unhex (s : string) : list byte :=
  match s with
  | String hi (String lo rest) =>
      byte_of_Z (16 * hex_value hi + hex_value lo) :: unhex rest
  | _ => []
  end.

Definition bytes_of_string (s : string) : list byte := list_byte_of_string s.

(* ------------------------------------------------------------------ *)
(** * Vocabulary of the properties *)

Definition is_digit (c : ascii) : bool := (48 <=? code c) && (code c <=? 57).


(** [sep.join(parts)]. *)
Fixpoint join (sep : string) (parts : list string) : string :=
  match parts with
  | [] => EmptyString
  | [p] => p
  | p :: rest => (p ++ sep ++ join sep rest)%string
  end.

(** The string has no occurrence of the character. *)
Definition free_of (sep : ascii) (s : string) : bool :=
  str_all (fun c => negb (Ascii.eqb c sep)) s.

(** The count a header declares under a key: the integer there, and 0
    when the key is absent or holds [None]; no count when the value is of
    another type. *)
Definition declared_count (h : list (pyval * pyval)) (k : Z) : option Z :=
  match dict_find h (PInt k) with
  | None | Some PNone => Some 0
  | Some (PInt n) => Some n
  | Some _ => None
  end.


(** A file under a name. *)
Definition file_named (n : string) (content : list byte) : Path :=
  {| name := n; file := Readable content |}.

(** An optional value that counts as given: [None], and what Python holds
    false (the integer 0, the empty string), count as absent. *)
Definition given {A : Type} `{Truthy A} (o : option A) : option A :=
  match o with
  | Some x => if truthy x then Some x else None
  | None => None
  end.

(** The first given value of two, else the default. *)
Definition first_given {A : Type} `{Truthy A} (a b : option A) (d : A) : A :=
  match given a, given b with
  | Some x, _ => x
  | None, Some y => y
  | None, None => d
  end.

(** The dict [parse_cbor_header] returns. *)
Definition header_dict (version era block_height : pyval) (block_hash : string)
    (governance_present : bool) : pyval :=
  PDict
    [ (PStr "version", version);
      (PStr "era", era);
      (PStr "block_height", block_height);
      (PStr "block_hash", PStr block_hash);
      (PStr "governance_section_present", PBool governance_present) ].

(** The dict [generate_manifest] returns. *)
Definition manifest_dict (era block_height : pyval) (block_hash sha256 : string)
    (created_at : string) (size_bytes : Z) (governance_present : bool) : pyval :=
  PDict
    [ (PStr "magic", PStr "CARDANO_SNAPSHOT");
      (PStr "version", PStr "1.0.0");
      (PStr "era", era);
      (PStr "block_height", block_height);
      (PStr "block_hash", PStr block_hash);
      (PStr "sha256", PStr sha256);
      (PStr "created_at", PStr created_at);
      (PStr "size_bytes", PInt size_bytes);
      (PStr "governance_section_present", PBool governance_present) ].

(** The digest of a content. *)
Definition sha256_hex (content : list byte) : string :=
  hashlib.hexdigest (hashlib.update hashlib.new content).


(* ------------------------------------------------------------------ *)
(** * Snapshot files used as examples

    Each is given by its bytes; the comment shows the CBOR data in
    diagnostic notation. *)

(** ["conway"] as a CBOR text string. *)
Definition conway : string := "66636f6e776179".

(** [[1, {0: "conway", 1: 1000000, 2: h'11223344aa..aa' (32 bytes),
      3: 2, 4: 3, 5: 1}, []]] *)
Definition small_snapshot : list byte :=
  unhex ("8301a600" ++ conway ++ "011a000f4240025820"
         ++ "11223344aaaaaaaaaaaaaaaaaaaaaaaaaaaaaaaaaaaaaaaaaaaaaaaaaaaaaaaa"
         ++ "03020403050180")%string.

(** [[1, {0: "conway", 1: 100, 2: h'0102'}]] *)
Definition two_elements : list byte :=
  unhex ("8201a300" ++ conway ++ "0118640242" ++ "0102")%string.

(** [[1, {0: "conway", 1: 100, 2: h'0102'}, [], []]] *)
Definition four_elements : list byte :=
  unhex ("8401a300" ++ conway ++ "0118640242" ++ "0102" ++ "8080")%string.

(** [[2, {0: "conway", 1: 100, 2: h'0102'}, []]] *)
Definition version_two : list byte :=
  unhex ("8302a300" ++ conway ++ "0118640242" ++ "0102" ++ "80")%string.

(** [[1, {0: "conway", 1: "", 2: h'ff'}, []]] *)
Definition short_hash : list byte :=
  unhex ("8301a300" ++ conway ++ "01600241" ++ "ff" ++ "80")%string.

(** [[1, {0: "conway", 1: 100, 2: 7}, []]] *)
Definition integer_hash : list byte :=
  unhex ("8301a300" ++ conway ++ "0118640207" ++ "80")%string.

(** [[1, {0: "conway", 1: 100, 2: h'0102', 4: 0}, []]] *)
Definition no_governance : list byte :=
  unhex ("8301a400" ++ conway ++ "0118640242" ++ "0102" ++ "0400" ++ "80")%string.

(** The digest of the empty file. *)
Definition sha256_of_nothing : string :=
  "e3b0c44298fc1c149afbf4c8996fb92427ae41e4649b934ca495991b7852b855".

(** The header of the first two examples, as [cbor2.load] gives it. *)
Definition short_header : pyval :=
  PDict [ (PInt 0, PStr "conway"); (PInt 1, PInt 100);
          (PInt 2, PBytes (unhex "0102")) ].

(* ------------------------------------------------------------------ *)
(** * Vocabulary of the further properties *)





(* ------------------------------------------------------------------ *)
(** * [json.dumps] and the command line

    [main] hands the manifest to [json.dumps(manifest, indent=4)].  With
    an indent, the encoder of the library is the recursive one below: the
    text is built whole, or the call raises [TypeError], for a value that
    is not serialisable ([bytes]) and for a dict key that is not a string,
    a number, a bool or [None].  The default [ensure_ascii] escapes every
    character outside printable ASCII.  (The recursion limit of the
    interpreter is not modelled.) *)

(** [str(n)] for an integer.  A number has no more decimal digits than
    binary ones. *)
Definition str_of_nonneg (n : Z) : string :=
  decimal (S (Z.to_nat (Z.log2 n))) n "".

Definition str_of_int (n : Z) : string :=
  if n <? 0 then String "-" (str_of_nonneg (- n)) else str_of_nonneg n.

Module json.

Definition quote : ascii := chr 34.

Definition backslash : ascii := chr 92.

Definition newline : ascii := chr 10.

(** [\uXXXX]. *)
Definition unicode_escape (n : Z) : string :=
  String backslash
    (String "u"
       (String (hex_digit (n / 4096 mod 16))
          (String (hex_digit (n / 256 mod 16))
             (String (hex_digit (n / 16 mod 16))
                (String (hex_digit (n mod 16)) ""))))).

Definition escape_char (c : ascii) : string :=
  let n := code c in
  if n =? 34 then String backslash (String quote "")
  else if n =? 92 then String backslash (String backslash "")
  else if n =? 10 then String backslash "n"
  else if n =? 13 then String backslash "r"
  else if n =? 9 then String backslash "t"
  else if n =? 8 then String backslash "b"
  else if n =? 12 then String backslash "f"
  else if (32 <=? n) && (n <=? 126) then String c ""
  else unicode_escape n.

Fixpoint escape (s : string) : string :=
  match s with
  | EmptyString => EmptyString
  | String c s' => (escape_char c ++ escape s')%string
  end.

(** A string between quotes. *)
Definition encode_str (s : string) : string :=
  String quote (escape s ++ String quote "")%string.

(** The text of a dict key. *)
Definition key_str (k : pyval) : res string :=
  match k with
  | PStr s => Ok s
  | PBool true => Ok "true"
  | PBool false => Ok "false"
  | PNone => Ok "null"
  | PInt n => Ok (str_of_int n)
  | _ => Raise TypeError
  end.

(** A new line and the indent of a nesting level. *)
Fixpoint spaces (n : nat) : string :=
  match n with
  | O => EmptyString
  | S n' => String " " (spaces n')
  end.

Definition newline_indent (indent level : nat) : string :=
  String newline (spaces (indent * level)).

(** What stands between the brackets of a container that is not empty. *)
Definition block (indent level : nat) (items : list string) : string :=
  (newline_indent indent (S level)
   ++ join (String "," (newline_indent indent (S level))) items
   ++ newline_indent indent level)%string.

Fixpoint encode (indent level : nat) (v : pyval) {struct v} : res string :=
  match v with
  | PNone => Ok "null"
  | PBool true => Ok "true"
  | PBool false => Ok "false"
  | PInt n => Ok (str_of_int n)
  | PStr s => Ok (encode_str s)
  | PBytes _ => Raise TypeError
  | PList [] => Ok "[]"
  | PList xs =>
      match
        (fix items (l : list pyval) : res (list string) :=
           match l with
           | [] => Ok []
           | x :: l' =>
               match encode indent (S level) x with
               | Ok s =>
                   match items l' with
                   | Ok r => Ok (s :: r)
                   | Raise e => Raise e
                   end
               | Raise e => Raise e
               end
           end) xs
      with
      | Ok r => Ok (String "[" (block indent level r ++ "]"))%string
      | Raise e => Raise e
      end
  | PDict [] => Ok "{}"
  | PDict kvs =>
      match
        (fix members (l : list (pyval * pyval)) : res (list string) :=
           match l with
           | [] => Ok []
           | (k, x) :: l' =>
               match key_str k with
               | Ok ks =>
                   match encode indent (S level) x with
                   | Ok s =>
                       match members l' with
                       | Ok r => Ok ((encode_str ks ++ ": " ++ s)%string :: r)
                       | Raise e => Raise e
                       end
                   | Raise e => Raise e
                   end
               | Raise e => Raise e
               end
           end) kvs
      with
      | Ok r => Ok (String "{" (block indent level r ++ "}"))%string
      | Raise e => Raise e
      end
  end.

(** [json.dumps(v, indent=indent)]. *)
Definition dumps (v : pyval) (indent : nat) : res string := encode indent 0 v.

End json.

Module cli.

(** The arguments [main] gets from the parser: the path named on the
    command line and the three options. *)
Record Namespace : Type := {
  snapshot : Path;
  era : option string;
  block_hash : option string;
  block_height : option Z
}.

(** What a run leaves: the text printed on the standard output with
    exit status 0, or an exception reported as [Error: ...] on the
    standard error (its wording is not modelled) with exit status 1. *)
Inductive outcome : Type :=
| Printed (stdout : string)
| Failed (error : exn).

Definition exit_status (o : outcome) : Z :=
  match o with
  | Printed _ => 0
  | Failed _ => 1
  end.

Section Main.

Variable cbor2_load : list byte -> option pyval.
Variable now : datetime.

(** [main], from the parsed arguments on. *)
Definition main (args : Namespace) : outcome :=
  let snapshot_path := snapshot args in
  match
    manifest <- generate_manifest cbor2_load now snapshot_path
                  (era args) (block_hash args) (block_height args) ;;
    json.dumps manifest 4
  with
  | Ok text => Printed (text ++ String json.newline "")%string
  | Raise e => Failed e
  end.

End Main.

End cli.

(* ------------------------------------------------------------------ *)
(** * Vocabulary of the properties of the output *)

(** Induction on a value and the values it contains. *)
Section PyvalInduction.

Variable P : pyval -> Prop.

Hypothesis P_none : P PNone.
Hypothesis P_bool : forall b, P (PBool b).
Hypothesis P_int : forall n, P (PInt n).
Hypothesis P_bytes : forall bs, P (PBytes bs).
Hypothesis P_str : forall s, P (PStr s).
Hypothesis P_list : forall xs, Forall P xs -> P (PList xs).
Hypothesis P_dict :
  forall kvs, Forall (fun kv => P (snd kv)) kvs -> P (PDict kvs).

Fixpoint pyval_nested_ind (v : pyval) : P v :=
  match v with
  | PNone => P_none
  | PBool b => P_bool b
  | PInt n => P_int n
  | PBytes bs => P_bytes bs
  | PStr s => P_str s
  | PList xs =>
      P_list xs
        ((fix all (l : list pyval) : Forall P l :=
            match l with
            | [] => Forall_nil P
            | x :: l' => Forall_cons x (pyval_nested_ind x) (all l')
            end) xs)
  | PDict kvs =>
      P_dict kvs
        ((fix all (l : list (pyval * pyval))
            : Forall (fun kv => P (snd kv)) l :=
            match l with
            | [] => Forall_nil _
            | kv :: l' =>
                Forall_cons kv (pyval_nested_ind (snd kv)) (all l')
            end) kvs)
  end.

End PyvalInduction.



(** A character of printable ASCII. *)
Definition is_printable (c : ascii) : bool :=
  (32 <=? code c) && (code c <=? 126).

(** A member of a JSON object on a line of its own, one level deep. *)
Definition member_line (key value : string) : string :=
  ("    " ++ json.encode_str key ++ ": " ++ value)%string.

(** The lines of a printed manifest whose era and block height are
    written [era_text] and [height_text]. *)
Definition manifest_lines (era_text height_text : string)
    (block_hash sha256 created_at : string) (size_bytes : Z)
    (governance_present : bool) : list string :=
  [ "{";
    (member_line "magic" (json.encode_str "CARDANO_SNAPSHOT") ++ ",")%string;
    (member_line "version" (json.encode_str "1.0.0") ++ ",")%string;
    (member_line "era" era_text ++ ",")%string;
    (member_line "block_height" height_text ++ ",")%string;
    (member_line "block_hash" (json.encode_str block_hash) ++ ",")%string;
    (member_line "sha256" (json.encode_str sha256) ++ ",")%string;
    (member_line "created_at" (json.encode_str created_at) ++ ",")%string;
    (member_line "size_bytes" (str_of_int size_bytes) ++ ",")%string;
    member_line "governance_section_present"
      (if governance_present then "true" else "false");
    "}" ].

(** A character the encoder writes: printable ASCII, or the new line
    between the members of a container. *)
Definition is_output_char (c : ascii) : bool :=
  is_printable c || Ascii.eqb c json.newline.


(** The command line [generate_manifest.py <path>] with its options. *)
Definition command_line (p : Path) (e bh : option string) (ht : option Z)
  : cli.Namespace :=
  {| cli.snapshot := p; cli.era := e; cli.block_hash := bh;
     cli.block_height := ht |}.

(* ------------------------------------------------------------------ *)
(** * The digest function *)

Example sha256_constants :
  List.length hashlib.K = 64%nat /\
  nth 0 hashlib.K 0 = 0x428a2f98 /\ nth 63 hashlib.K 0 = 0xc67178f2 /\
  hashlib.ra hashlib.H0 = 0x6a09e667 /\ hashlib.rh hashlib.H0 = 0x5be0cd19.
Proof. vm_compute. repeat split. Qed.

(** SHA-256 of the test vectors of the standard. *)
Example sha256_abc :
  hashlib.hexdigest (hashlib.update hashlib.new (bytes_of_string "abc"))
  = "ba7816bf8f01cfea414140de5dae2223b00361a396177a9cb410ff61f20015ad".
Proof. vm_compute. reflexivity. Qed.

Example sha256_empty :
  hashlib.hexdigest hashlib.new
  = "e3b0c44298fc1c149afbf4c8996fb92427ae41e4649b934ca495991b7852b855".
Proof. vm_compute. reflexivity. Qed.

Example sha256_two_blocks :
  hashlib.hexdigest
    (hashlib.update hashlib.new (repeat "a"%byte 70))
  = "6bd5e5034855a11241f0dee8fc72850ffd9955b28347a86428b5fa19119f6ad0".
Proof. vm_compute. reflexivity. Qed.

(* ------------------------------------------------------------------ *)
(** * The streaming digest *)

Lemma read_app (n : Z) (f : list byte) :
  fst (read n f) ++ snd (read n f) = f.
Proof.
  unfold read. destruct (n <? 0); simpl.
  - apply app_nil_r.
  - apply firstn_skipn.
Qed.

Lemma read_empty_chunk (n : Z) (f rest : list byte) :
  n <> 0 -> read n f = ([], rest) -> f = [].
Proof.
  unfold read. intros Hn H.
  destruct f as [|b f]; [reflexivity|].
  destruct (n <? 0) eqn:Hneg.
  - inversion H.
  - apply Z.ltb_ge in Hneg.
    destruct (Z.to_nat n) eqn:Hnat; [lia | discriminate].
Qed.

Lemma update_update (h : hashlib.sha256) (a b : list byte) :
  hashlib.update (hashlib.update h a) b = hashlib.update h (a ++ b).
Proof. unfold hashlib.update. simpl. now rewrite app_assoc. Qed.

Lemma update_nil (h : hashlib.sha256) : hashlib.update h [] = h.
Proof. destruct h. unfold hashlib.update. simpl. now rewrite app_nil_r. Qed.

(** The loop feeds the whole file, in order, whatever the chunk size. *)
Lemma feed_whole_file (chunk_size : Z) (f : list byte) (hasher : hashlib.sha256) :
  chunk_size <> 0 -> feed chunk_size f hasher = hashlib.update hasher f.
Proof.
  intros Hn. funelim (feed chunk_size f hasher).
  - rewrite (read_empty_chunk _ _ _ Hn e). symmetry. apply update_nil.
  - rewrite H by assumption. rewrite update_update.
    f_equal. pose proof (read_app chunk_size f) as Happ.
    rewrite e in Happ. exact Happ.
Qed.



(* ------------------------------------------------------------------ *)
(** * Characters and digits *)

(** A property of the integers below [k], checked by running through them. *)
Lemma forall_below (P : Z -> bool) (k : nat) :
  forallb P (map Z.of_nat (seq 0 k)) = true ->
  forall n, 0 <= n < Z.of_nat k -> P n = true.
Proof.
  intros Hall n Hn. rewrite forallb_forall in Hall. apply Hall.
  rewrite <- (Z2Nat.id n) by lia. apply in_map, in_seq. lia.
Qed.



Lemma lower_char_idempotent (c : ascii) :
  lower_char (lower_char c) = lower_char c.
Proof. destruct c as [[] [] [] [] [] [] [] []]; vm_compute; reflexivity. Qed.

Lemma lower_char_hex (c : ascii) :
  is_hex c = true -> is_lower_hex (lower_char c) = true.
Proof.
  destruct c as [[] [] [] [] [] [] [] []]; vm_compute;
    intros H; solve [reflexivity | discriminate H].
Qed.

Lemma lower_idempotent (s : string) : lower (lower s) = lower s.
Proof.
  induction s as [|c s IH]; simpl; [reflexivity|].
  now rewrite lower_char_idempotent, IH.
Qed.


Lemma lower_hex (s : string) :
  str_all is_hex s = true -> str_all is_lower_hex (lower s) = true.
Proof.
  induction s as [|c s IH]; simpl; [reflexivity|].
  intros H. apply andb_prop in H as [Hc Hs].
  now rewrite lower_char_hex, IH.
Qed.




(* ------------------------------------------------------------------ *)
(** * The time stamp *)

Lemma is_digit_digit_char (n : Z) : is_digit (digit_char n) = true.
Proof.
  unfold digit_char.
  apply (forall_below (fun k => is_digit (chr (48 + k))) 10).
  - vm_compute. reflexivity.
  - apply Z.mod_pos_bound. lia.
Qed.

Lemma decimal_four_digits (fuel : nat) (n : Z) (acc : string) :
  (4 <= fuel)%nat -> 1000 <= n <= 9999 ->
  decimal fuel n acc =
  String (digit_char (n / 10 / 10 / 10))
    (String (digit_char (n / 10 / 10))
       (String (digit_char (n / 10)) (String (digit_char n) acc))).
Proof.
  intros Hfuel Hn.
  do 4 (destruct fuel as [|fuel]; [lia|]).
  cbn [decimal].
  assert (H0 : (n <? 10) = false) by (apply Z.ltb_ge; lia).
  assert (H1 : (n / 10 <? 10) = false).
  { apply Z.ltb_ge. apply Z.div_le_lower_bound; lia. }
  assert (H2 : (n / 10 / 10 <? 10) = false).
  { apply Z.ltb_ge. rewrite Z.div_div by lia.
    apply Z.div_le_lower_bound; lia. }
  assert (H3 : (n / 10 / 10 / 10 <? 10) = true).
  { apply Z.ltb_lt. rewrite !Z.div_div by lia.
    apply Z.div_lt_upper_bound; lia. }
  rewrite H0, H1, H2, H3. reflexivity.
Qed.


(* ------------------------------------------------------------------ *)
(** * Header parsing and manifest assembly *)

Lemma compute_sha256_readable (p : Path) (content : list byte) :
  file p = Readable content ->
  compute_sha256 p default_chunk_size = Ok (sha256_hex content).
Proof.
  intros Hf. unfold compute_sha256, open_rb. rewrite Hf. simpl.
  rewrite feed_whole_file by discriminate. reflexivity.
Qed.

Lemma truthy_Z (n : Z) : truthy n = negb (n =? 0).
Proof. reflexivity. Qed.

Lemma por_int (a b : option Z) (d : Z) :
  por (por (of_opt_int a) (of_opt_int b)) (PInt d) = PInt (first_given a b d).
Proof.
  unfold por, first_given, given.
  destruct a as [x|], b as [y|]; cbn;
    repeat match goal with
           | |- context [@truthy Z _ ?v] =>
               destruct (@truthy Z _ v) eqn:?; cbn
           end; congruence.
Qed.

Lemma por_str (a b : option string) (d : string) :
  d <> "" ->
  por (por (of_opt_str a) (of_opt_str b)) (PStr d) = PStr (first_given a b d).
Proof.
  intros Hd. unfold por, first_given, given.
  destruct a as [[|c s]|], b as [[|c' s']|], d as [|c'' d]; simpl;
    reflexivity || congruence.
Qed.

Lemma por_era (a : option string) :
  por (of_opt_str a) (PStr "conway") = PStr (first_given a None "conway").
Proof. destruct a as [[|c s]|]; reflexivity. Qed.

(** ** The decoded data *)

Lemma length_two_more {A : Type} (x y : A) (rest : list A) :
  (Z.of_nat (List.length (x :: y :: rest)) <? 2) = false.
Proof. apply Z.ltb_ge. simpl List.length. lia. Qed.

(** Only the first two elements of the envelope are looked at. *)
Lemma header_fields_rest (v hd : pyval) (rest rest' : list pyval) :
  header_fields (PList (v :: hd :: rest)) =
  header_fields (PList (v :: hd :: rest')).
Proof. unfold header_fields. rewrite !length_two_more. reflexivity. Qed.

Lemma header_fields_not_list (data : pyval) :
  (forall xs, data <> PList xs) -> header_fields data = Ok None.
Proof.
  intros H. destruct data; try reflexivity. now contradiction (H xs).
Qed.

Lemma header_fields_short (xs : list pyval) :
  (List.length xs < 2)%nat -> header_fields (PList xs) = Ok None.
Proof.
  intros H. unfold header_fields.
  replace (Z.of_nat (List.length xs) <? 2) with true; [reflexivity|].
  symmetry. apply Z.ltb_lt. lia.
Qed.

Lemma header_fields_not_dict (v hd : pyval) (rest : list pyval) :
  (forall h, hd <> PDict h) ->
  header_fields (PList (v :: hd :: rest)) = Ok None.
Proof.
  intros H. unfold header_fields. rewrite length_two_more.
  destruct hd; try reflexivity. now contradiction (H kvs).
Qed.

Lemma gt0_declared (h : list (pyval * pyval)) (k g : Z) :
  declared_count h k = Some g ->
  gt0 (por (dict_get h (PInt k) (PInt 0)) (PInt 0)) = Ok (0 <? g).
Proof.
  unfold declared_count, dict_get.
  destruct (dict_find h (PInt k)) as [[]|]; try discriminate.
  - intros [= <-]. reflexivity.
  - intros [= ->]. unfold por. cbn. rewrite truthy_Z.
    destruct (Z.eqb_spec g 0) as [->|Hg]; reflexivity.
  - intros [= <-]. reflexivity.
Qed.

(** A header with a true era, a height and a byte string that is not
    empty is accepted, whatever the length of the byte string. *)
Lemma header_fields_accepts (v : pyval) (h : list (pyval * pyval))
    (rest : list pyval) (bs : list byte) (g q : Z) :
  truthy (dict_get h (PInt 0) PNone) = true ->
  dict_get h (PInt 1) PNone <> PNone ->
  dict_get h (PInt 2) PNone = PBytes bs -> bs <> [] ->
  declared_count h 4 = Some g -> declared_count h 5 = Some q ->
  header_fields (PList (v :: PDict h :: rest)) =
  Ok (Some (header_dict v (dict_get h (PInt 0) PNone)
              (dict_get h (PInt 1) PNone) (bytes_hex bs)
              ((0 <? g) || (0 <? q)))).
Proof.
  intros Hera Hheight Hhash Hbs Hg Hq.
  unfold header_fields. rewrite length_two_more. cbn [nth].
  rewrite Hera, Hhash.
  destruct (dict_get h (PInt 1) PNone) eqn:Hh; try congruence;
    (destruct bs; [congruence|]); cbn;
    rewrite (gt0_declared _ _ _ Hg); cbn;
    (destruct (0 <? g); cbn; [reflexivity|]);
    rewrite (gt0_declared _ _ _ Hq); reflexivity.
Qed.

(** A header without a true era, without a height or without a true
    block hash is rejected. *)
Lemma header_fields_rejects (v : pyval) (h : list (pyval * pyval))
    (rest : list pyval) :
  truthy (dict_get h (PInt 0) PNone) = false \/
  dict_get h (PInt 1) PNone = PNone \/
  truthy (dict_get h (PInt 2) PNone) = false ->
  header_fields (PList (v :: PDict h :: rest)) = Ok None.
Proof.
  intros H. unfold header_fields. rewrite length_two_more. cbn [nth].
  destruct H as [H | [H | H]]; rewrite H; cbn.
  - reflexivity.
  - now rewrite orb_true_r.
  - now rewrite orb_true_r.
Qed.

(** What an accepted header was. *)
Lemma header_fields_some (data d : pyval) :
  header_fields data = Ok (Some d) ->
  exists v h rest bs g,
    data = PList (v :: PDict h :: rest) /\
    truthy (dict_get h (PInt 0) PNone) = true /\
    dict_get h (PInt 1) PNone <> PNone /\
    dict_get h (PInt 2) PNone = PBytes bs /\ bs <> [] /\
    d = header_dict v (dict_get h (PInt 0) PNone)
          (dict_get h (PInt 1) PNone) (bytes_hex bs) g.
Proof.
  unfold header_fields.
  destruct data as [| | | | |xs|]; try discriminate.
  destruct xs as [|v [|hd rest]]; try discriminate.
  rewrite length_two_more. cbn [nth].
  destruct hd as [| | | | | |h]; try discriminate.
  destruct (truthy (dict_get h (PInt 0) PNone)) eqn:Hera; [|discriminate].
  destruct (is_none (dict_get h (PInt 1) PNone)) eqn:Hheight; [discriminate|].
  destruct (dict_get h (PInt 2) PNone) as [|b|n|bs|s|l|kv] eqn:Hhash;
    [ discriminate
    | destruct b; discriminate
    | cbn; rewrite truthy_Z; destruct (n =? 0); discriminate
    |
    | destruct s; discriminate
    | destruct l; discriminate
    | destruct kv; discriminate ].
  destruct bs as [|b bs]; [discriminate|]. cbn.
  intros H.
  assert (Hg : exists g, d = header_dict v (dict_get h (PInt 0) PNone)
             (dict_get h (PInt 1) PNone) (bytes_hex (b :: bs)) g).
  { destruct (gt0 (por (dict_get h (PInt 4) (PInt 0)) (PInt 0))) as [[]|];
      cbn in H; try discriminate.
    - inversion H. now exists true.
    - destruct (gt0 (por (dict_get h (PInt 5) (PInt 0)) (PInt 0))) as [g|];
        cbn in H; try discriminate.
      inversion H. now exists g. }
  destruct Hg as [g Hd].
  exists v, h, rest, (b :: bs), g.
  repeat split; try assumption; try discriminate.
  intros Hn. rewrite Hn in Hheight. discriminate.
Qed.

Section Properties.

Variable cbor2_load : list byte -> option pyval.
Variable now : datetime.

(** Below the size ceiling, a readable file the decoder accepts is judged
    on the decoded data alone. *)
Lemma parse_cbor_header_decoded (p : Path) (size : Z) (content : list byte)
    (data : pyval) :
  file p = Readable content -> size <= size_ceiling ->
  cbor2_load content = Some data ->
  parse_cbor_header cbor2_load p size = header_fields data.
Proof.
  intros Hf Hsize Hload.
  unfold parse_cbor_header, open_rb.
  apply Z.ltb_ge in Hsize. rewrite Hsize, Hf, Hload. reflexivity.
Qed.

(** Decoding is skipped above the ceiling, and a file the decoder refuses
    has no header. *)
Lemma parse_cbor_header_skipped (p : Path) (size : Z) :
  size_ceiling < size -> parse_cbor_header cbor2_load p size = Ok None.
Proof.
  intros Hsize. unfold parse_cbor_header.
  apply Z.ltb_lt in Hsize. now rewrite Hsize.
Qed.

Lemma parse_cbor_header_undecodable (p : Path) (size : Z) (content : list byte) :
  file p = Readable content -> cbor2_load content = None ->
  parse_cbor_header cbor2_load p size = Ok None.
Proof.
  intros Hf Hload. unfold parse_cbor_header, open_rb.
  rewrite Hf, Hload. now destruct (size_ceiling <? size).
Qed.

#[local] Arguments compute_sha256 : simpl never.
#[local] Arguments default_chunk_size : simpl never.
#[local] Arguments strftime : simpl never.
#[local] Arguments sha256_hex : simpl never.
#[local] Arguments st_size : simpl never.
#[local] Arguments lower : simpl never.
#[local] Arguments first_given : simpl never.

(** A header is only ever obtained from decoded data. *)
Lemma parse_cbor_header_some (p : Path) (size : Z) (d : pyval) :
  parse_cbor_header cbor2_load p size = Ok (Some d) ->
  exists content data,
    file p = Readable content /\ size <= size_ceiling /\
    cbor2_load content = Some data /\ header_fields data = Ok (Some d).
Proof.
  unfold parse_cbor_header, open_rb.
  destruct (size_ceiling <? size) eqn:Hsize; [discriminate|].
  apply Z.ltb_ge in Hsize.
  destruct (file p) as [|n|content]; try discriminate.
  destruct (cbor2_load content) as [data|] eqn:Hload; [|discriminate].
  intros H. now exists content, data.
Qed.

(** ** The manifest, path by path *)

Lemma generate_manifest_missing (p : Path) (e bh : option string)
    (ht : option Z) :
  file p = Missing ->
  generate_manifest cbor2_load now p e bh ht = Raise FileNotFoundError.
Proof. intros Hf. unfold generate_manifest, exists_. now rewrite Hf. Qed.

Lemma generate_manifest_from_header (p : Path) (content : list byte)
    (v era height : pyval) (hash : string) (g : bool)
    (e bh : option string) (ht : option Z) :
  file p = Readable content ->
  parse_cbor_header cbor2_load p (st_size p)
  = Ok (Some (header_dict v era height hash g)) ->
  generate_manifest cbor2_load now p e bh ht
  = Ok (manifest_dict era height hash (sha256_hex content) (strftime now)
          (st_size p) g).
Proof.
  intros Hf Hparse. unfold generate_manifest, exists_.
  rewrite Hf, Hparse. cbn.
  rewrite (compute_sha256_readable _ _ Hf). reflexivity.
Qed.

Lemma generate_manifest_fallback (p : Path) (content : list byte)
    (e bh : option string) (ht : option Z) :
  file p = Readable content ->
  parse_cbor_header cbor2_load p (st_size p) = Ok None ->
  generate_manifest cbor2_load now p e bh ht
  = Ok (manifest_dict
          (PStr (first_given e None "conway"))
          (PInt (first_given ht (fst (derive_from_filename p)) 1))
          (lower (first_given bh (snd (derive_from_filename p)) "unknown"))
          (sha256_hex content) (strftime now) (st_size p) false).
Proof.
  intros Hf Hparse. unfold generate_manifest, exists_.
  rewrite Hf, Hparse. cbn [negb bind].
  destruct (derive_from_filename p) as [slot hash]. cbn [fst snd].
  rewrite por_int, por_str, por_era by discriminate. cbn.
  rewrite (compute_sha256_readable _ _ Hf). reflexivity.
Qed.

(** In the fallback path a readable file always has its manifest. *)
Lemma generate_manifest_fallback_ok (p : Path) (content : list byte)
    (e bh : option string) (ht : option Z) :
  file p = Readable content ->
  parse_cbor_header cbor2_load p (st_size p) = Ok None ->
  raises (generate_manifest cbor2_load now p e bh ht) = false.
Proof.
  intros Hf Hparse.
  now rewrite (generate_manifest_fallback _ _ _ _ _ Hf Hparse).
Qed.

(** What a manifest that was built was built from. *)
Lemma generate_manifest_ok (p : Path) (e bh : option string) (ht : option Z)
    (m : pyval) :
  generate_manifest cbor2_load now p e bh ht = Ok m ->
  exists content,
    file p = Readable content /\
    (parse_cbor_header cbor2_load p (st_size p) = Ok None \/
     exists v h rest bs g,
       cbor2_load content = Some (PList (v :: PDict h :: rest)) /\
       st_size p <= size_ceiling /\ bs <> [] /\
       dict_get h (PInt 2) PNone = PBytes bs /\
       parse_cbor_header cbor2_load p (st_size p)
       = Ok (Some (header_dict v (dict_get h (PInt 0) PNone)
                     (dict_get h (PInt 1) PNone) (bytes_hex bs) g))).
Proof.
  intros Hgen.
  destruct (file p) as [|n|content] eqn:Hf.
  - rewrite generate_manifest_missing in Hgen by assumption. discriminate.
  - exfalso. revert Hgen. unfold generate_manifest, exists_.
    rewrite Hf. cbn [negb].
    destruct (parse_cbor_header cbor2_load p (st_size p)) as [[d|]|] eqn:Hp;
      [ | | discriminate ].
    + apply parse_cbor_header_some in Hp as (c & ? & Hc & _).
      congruence.
    + cbn [bind]. destruct (derive_from_filename p) as [slot hash].
      rewrite por_int, por_str, por_era by discriminate. cbn.
      unfold compute_sha256, open_rb. rewrite Hf. discriminate.
  - exists content. split; [reflexivity|].
    destruct (parse_cbor_header cbor2_load p (st_size p)) as [[d|]|ex] eqn:Hp.
    + right.
      destruct (parse_cbor_header_some _ _ _ Hp)
        as (c & data & Hc & Hsize & Hload & Hfields).
      assert (c = content) by congruence. subst c.
      destruct (header_fields_some _ _ Hfields)
        as (v & h & rest & bs & g & -> & _ & _ & Hhash & Hbs & ->).
      now exists v, h, rest, bs, g.
    + now left.
    + exfalso. revert Hgen. unfold generate_manifest, exists_.
      rewrite Hf, Hp. discriminate.
Qed.

Lemma derived_hash_lower (p : Path) (s : string) :
  snd (derive_from_filename p) = Some s ->
  lower s = s /\ str_all is_lower_hex s = true.
Proof.
  unfold derive_from_filename.
  destruct (_ && _); [|discriminate].
  destruct (int_of_str _); [|discriminate].
  destruct (str_all is_hex _) eqn:Hhex; [|discriminate].
  cbn [snd]. intros [= <-]. split.
  - apply lower_idempotent.
  - now apply lower_hex.
Qed.

Lemma given_some_Z (n : Z) : n <> 0 -> given (Some n) = Some n.
Proof.
  intros Hn. unfold given. rewrite truthy_Z.
  destruct (Z.eqb_spec n 0); [contradiction | reflexivity].
Qed.

Lemma given_some_str (s : string) : s <> "" -> given (Some s) = Some s.
Proof. intros Hs. destruct s; [contradiction | reflexivity]. Qed.



(** ** Precedence of the sources of a field *)

(** C3, as amended.  When the header is decoded, the manifest takes era,
    block height and block hash from the header, whatever the overrides
    and the file name are.  When it is not, an override that is given (a
    height other than 0, a string that is not empty) is used, the block
    hash in lower case; a height or hash that is not so given comes from
    the file name when the name yields one. *)
Theorem manifest_precedence (p : Path) (content : list byte)
    (e bh : option string) (ht : option Z) :
  file p = Readable content ->
  (forall header,
     parse_cbor_header cbor2_load p (st_size p) = Ok (Some header) ->
     exists m era height hash,
       generate_manifest cbor2_load now p e bh ht = Ok m /\
       getitem header "era" = Ok era /\ getitem m "era" = Ok era /\
       getitem header "block_height" = Ok height /\
       getitem m "block_height" = Ok height /\
       getitem header "block_hash" = Ok hash /\
       getitem m "block_hash" = Ok hash) /\
  (parse_cbor_header cbor2_load p (st_size p) = Ok None ->
   exists m,
     generate_manifest cbor2_load now p e bh ht = Ok m /\
     (forall s, e = Some s -> s <> "" -> getitem m "era" = Ok (PStr s)) /\
     (forall n, ht = Some n -> n <> 0 ->
        getitem m "block_height" = Ok (PInt n)) /\
     (forall s, bh = Some s -> s <> "" ->
        getitem m "block_hash" = Ok (PStr (lower s))) /\
     (forall n, given ht = None ->
        fst (derive_from_filename p) = Some n -> n <> 0 ->
        getitem m "block_height" = Ok (PInt n)) /\
     (forall s, given bh = None ->
        snd (derive_from_filename p) = Some s -> s <> "" ->
        getitem m "block_hash" = Ok (PStr s))).
Proof.
  intros Hf. split.
  - intros header Hp.
    destruct (parse_cbor_header_some _ _ _ Hp) as (c & data & _ & _ & _ & Hd).
    destruct (header_fields_some _ _ Hd)
      as (v & h & rest & bs & g & _ & _ & _ & _ & _ & ->).
    eexists. exists (dict_get h (PInt 0) PNone), (dict_get h (PInt 1) PNone),
      (PStr (bytes_hex bs)).
    rewrite (generate_manifest_from_header _ _ _ _ _ _ _ e bh ht Hf Hp).
    repeat split.
  - intros Hp. eexists.
    rewrite (generate_manifest_fallback _ _ e bh ht Hf Hp).
    split; [reflexivity|].
    repeat split.
    + intros s -> Hs. cbn. unfold first_given.
      now rewrite given_some_str.
    + intros n -> Hn. cbn. unfold first_given.
      now rewrite given_some_Z.
    + intros s -> Hs. cbn. unfold first_given.
      now rewrite given_some_str.
    + intros n Hg Hd Hn. cbn. unfold first_given.
      now rewrite Hg, Hd, given_some_Z.
    + intros s Hg Hd Hs. cbn. unfold first_given.
      rewrite Hg, Hd, given_some_str by assumption.
      now destruct (derived_hash_lower _ _ Hd) as [-> _].
Qed.

(** ** The defaults of the fallback path *)


(** ** The governance flag *)

(** C9.  When the header is decoded and its declared counts of governance
    actions and parameter sets are integers, an absent count being 0, the
    flag of the manifest says whether one of them is positive; in the
    fallback path the flag is false. *)
Theorem governance_section_present_spec (p : Path) (content : list byte)
    (e bh : option string) (ht : option Z) :
  file p = Readable content ->
  (forall v h rest d g q,
     st_size p <= size_ceiling ->
     cbor2_load content = Some (PList (v :: PDict h :: rest)) ->
     parse_cbor_header cbor2_load p (st_size p) = Ok (Some d) ->
     declared_count h 4 = Some g -> declared_count h 5 = Some q ->
     exists m,
       generate_manifest cbor2_load now p e bh ht = Ok m /\
       getitem m "governance_section_present"
       = Ok (PBool ((0 <? g) || (0 <? q)))) /\
  (parse_cbor_header cbor2_load p (st_size p) = Ok None ->
   exists m,
     generate_manifest cbor2_load now p e bh ht = Ok m /\
     getitem m "governance_section_present" = Ok (PBool false)).
Proof.
  intros Hf. split.
  - intros v h rest d g q Hsize Hload Hp Hg Hq.
    pose proof Hp as Hd.
    rewrite (parse_cbor_header_decoded _ _ _ _ Hf Hsize Hload) in Hd.
    destruct (header_fields_some _ _ Hd)
      as (v' & h' & rest' & bs & g' & [= <- <- <-] & Hera & Hht & Hhash & Hbs & _).
    rewrite (header_fields_accepts _ _ _ _ _ _ Hera Hht Hhash Hbs Hg Hq) in Hd.
    injection Hd as <-.
    eexists.
    rewrite (generate_manifest_from_header _ _ _ _ _ _ _ e bh ht Hf Hp).
    split; reflexivity.
  - intros Hp. eexists.
    rewrite (generate_manifest_fallback _ _ e bh ht Hf Hp).
    split; reflexivity.
Qed.

(** ** The fields of a manifest *)


(** ** The envelope *)

(** C4, as amended.  No header is obtained from a top-level value that
    is not a sequence, that has fewer than two elements, or whose second
    element is not a map.  The elements after the second are not looked
    at: an array of two elements, or of four and more, is decoded as the
    array of three with the same version and header is. *)
Theorem envelope_shape (p : Path) (size : Z) (content : list byte)
    (data : pyval) :
  file p = Readable content -> size <= size_ceiling ->
  cbor2_load content = Some data ->
  ((forall xs, data <> PList xs) ->
   parse_cbor_header cbor2_load p size = Ok None) /\
  (forall xs, data = PList xs -> (List.length xs < 2)%nat ->
   parse_cbor_header cbor2_load p size = Ok None) /\
  (forall v hd rest, data = PList (v :: hd :: rest) ->
   (forall h, hd <> PDict h) ->
   parse_cbor_header cbor2_load p size = Ok None) /\
  (forall v hd rest records, data = PList (v :: hd :: rest) ->
   parse_cbor_header cbor2_load p size
   = header_fields (PList [v; hd; records])).
Proof.
  intros Hf Hsize Hload.
  rewrite (parse_cbor_header_decoded _ _ _ _ Hf Hsize Hload).
  repeat split.
  - apply header_fields_not_list.
  - intros xs -> Hlen. now apply header_fields_short.
  - intros v hd rest -> Hhd. now apply header_fields_not_dict.
  - intros v hd rest records ->. apply header_fields_rest.
Qed.

(** ** The version *)




(** ** The required fields of the header *)

(** C6, as amended.  A header is rejected when its era is missing or
    false (the empty string), its block height is missing, or its block
    hash is missing or empty.  The length of the block hash is not
    checked: with a true era, a block height and declared counts that are
    integers or absent, every byte string that is not empty is accepted
    and written in hexadecimal.  The records play no part in either. *)
Theorem header_required_fields (p : Path) (size : Z) (content : list byte)
    (v : pyval) (h : list (pyval * pyval)) (rest : list pyval) :
  file p = Readable content -> size <= size_ceiling ->
  cbor2_load content = Some (PList (v :: PDict h :: rest)) ->
  (truthy (dict_get h (PInt 0) PNone) = false \/
   dict_get h (PInt 1) PNone = PNone \/
   truthy (dict_get h (PInt 2) PNone) = false ->
   parse_cbor_header cbor2_load p size = Ok None) /\
  (forall bs g q,
     truthy (dict_get h (PInt 0) PNone) = true ->
     dict_get h (PInt 1) PNone <> PNone ->
     dict_get h (PInt 2) PNone = PBytes bs -> bs <> [] ->
     declared_count h 4 = Some g -> declared_count h 5 = Some q ->
     parse_cbor_header cbor2_load p size
     = Ok (Some (header_dict v (dict_get h (PInt 0) PNone)
                   (dict_get h (PInt 1) PNone) (bytes_hex bs)
                   ((0 <? g) || (0 <? q))))) /\
  (forall records,
     parse_cbor_header cbor2_load p size
     = header_fields (PList [v; PDict h; records])).
Proof.
  intros Hf Hsize Hload.
  rewrite (parse_cbor_header_decoded _ _ _ _ Hf Hsize Hload).
  repeat split.
  - apply header_fields_rejects.
  - intros bs g q. apply header_fields_accepts.
  - intros records. apply header_fields_rest.
Qed.

End Properties.

(* ------------------------------------------------------------------ *)
(** * The file-name convention *)

Section SplitJoin.

Variable sep : ascii.

Lemma split_not_nil (s : string) : split sep s <> [].
Proof.
  destruct s as [|c s]; simpl; [discriminate|].
  destruct (Ascii.eqb c sep); [discriminate|].
  destruct (split sep s); discriminate.
Qed.

Lemma split_free_single (s : string) :
  free_of sep s = true -> split sep s = [s].
Proof.
  induction s as [|c s IH]; simpl; [reflexivity|].
  intros H. apply andb_prop in H as [Hc Hs].
  apply negb_true_iff in Hc. rewrite Hc, (IH Hs). reflexivity.
Qed.

Lemma split_app_sep (s t : string) :
  free_of sep s = true ->
  split sep (s ++ String sep t)%string = s :: split sep t.
Proof.
  induction s as [|c s IH]; simpl.
  - intros _. now rewrite Ascii.eqb_refl.
  - intros H. apply andb_prop in H as [Hc Hs].
    apply negb_true_iff in Hc. rewrite Hc, (IH Hs). reflexivity.
Qed.

Lemma join_cons (p q : string) (rest : list string) :
  join (String sep EmptyString) (p :: q :: rest) = (p ++ String sep (join (String sep EmptyString) (q :: rest)))%string.
Proof. reflexivity. Qed.

(** Splitting what was joined gives the parts back. *)
Lemma split_join (parts : list string) :
  parts <> [] -> Forall (fun s => free_of sep s = true) parts ->
  split sep (join (String sep EmptyString) parts) = parts.
Proof.
  induction parts as [|p [|q rest] IH]; intros Hne Hfree.
  - contradiction.
  - inversion Hfree; subst. now apply split_free_single.
  - inversion Hfree; subst. rewrite join_cons, split_app_sep by assumption.
    f_equal. apply IH; [discriminate | assumption].
Qed.

Lemma join_cons_char (c : ascii) (p : string) (ps : list string) :
  join (String sep EmptyString) (String c p :: ps) = String c (join (String sep EmptyString) (p :: ps)).
Proof. destruct ps; reflexivity. Qed.

(** Joining what was split gives the string back. *)
Lemma join_split (s : string) : join (String sep EmptyString) (split sep s) = s.
Proof.
  induction s as [|c s IH]; [reflexivity|]. simpl split.
  destruct (Ascii.eqb_spec c sep) as [->|Hc].
  - pose proof (split_not_nil s) as Hne.
    destruct (split sep s) as [|q rest]; [contradiction|].
    rewrite join_cons, IH. reflexivity.
  - pose proof (split_not_nil s) as Hne.
    destruct (split sep s) as [|q rest]; [contradiction|].
    rewrite join_cons_char, IH. reflexivity.
Qed.

(** The parts of a split are free of the separator. *)
Lemma split_free (s : string) :
  Forall (fun t => free_of sep t = true) (split sep s).
Proof.
  induction s as [|c s IH]; simpl.
  - repeat constructor.
  - destruct (Ascii.eqb c sep) eqn:Hc.
    + constructor; [reflexivity | assumption].
    + destruct (split sep s) as [|q rest]; [repeat constructor|].
      * unfold free_of. simpl. now rewrite Hc.
      * inversion IH; subst. constructor; [|assumption].
        unfold free_of in *. simpl. now rewrite Hc.
Qed.

End SplitJoin.

Lemma last_two_more {A : Type} (x y : A) (middle : list A) (z d : A) :
  last (x :: y :: middle ++ [z]) d = z.
Proof.
  change (x :: y :: middle ++ [z]) with ((x :: y :: middle) ++ [z]).
  apply last_last.
Qed.

(** A list of three elements and more is two elements, a middle and a
    last element. *)
Lemma three_parts {A : Type} (l : list A) (d : A) :
  (3 <= List.length l)%nat ->
  exists x y middle, l = x :: y :: middle ++ [last l d].
Proof.
  intros Hlen.
  destruct l as [|x [|y tl]]; simpl in Hlen; try lia.
  assert (Htl : tl <> []) by (destruct tl; [simpl in Hlen; lia | discriminate]).
  destruct (exists_last Htl) as (middle & z & ->).
  exists x, y, middle. now rewrite last_two_more.
Qed.

Lemma derive_from_filename_parts (p : Path) (first second : string)
    (middle : list string) (ext : string) :
  split "." (name p) = first :: second :: middle ++ [ext] ->
  derive_from_filename p =
  if String.eqb (lower ext) "cbor" then
    match int_of_str first with
    | Some slot =>
        if str_all is_hex second then (Some slot, Some (lower second))
        else (None, None)
    | None => (None, None)
    end
  else (None, None).
Proof.
  intros Hs. unfold derive_from_filename. rewrite Hs, last_two_more.
  replace (3 <=? Z.of_nat (List.length (first :: second :: middle ++ [ext])))
    with true.
  - reflexivity.
  - symmetry. apply Z.leb_le. simpl List.length. rewrite length_app.
    simpl. lia.
Qed.

(** C7, as amended.  The file name yields a block height and a block hash
    exactly when it has three or more components between dots, the last
    of them is [cbor] in any case of letters, the first is accepted by
    [int] (decimal digits, which white space may surround, a sign may
    precede and single underscores may separate) and the second consists
    of hexadecimal digits; the hash is the second component in lower
    case.  Any other name yields neither. *)
Theorem derive_from_filename_spec (p : Path) :
  (forall n h,
     derive_from_filename p = (Some n, Some h) <->
     exists first second middle ext,
       name p = join "." (first :: second :: middle ++ [ext]) /\
       Forall (fun s => free_of "." s = true)
              (first :: second :: middle ++ [ext]) /\
       lower ext = "cbor" /\
       int_of_str first = Some n /\
       str_all is_hex second = true /\
       h = lower second) /\
  ((forall n h, derive_from_filename p <> (Some n, Some h)) ->
   derive_from_filename p = (None, None)).
Proof.
  split.
  - intros n h. split.
    + intros Hd.
      assert (Hlen : (3 <= List.length (split "." (name p)))%nat).
      { revert Hd. unfold derive_from_filename.
        destruct (3 <=? _) eqn:Hlen; [|discriminate].
        intros _. apply Z.leb_le in Hlen. lia. }
      destruct (three_parts _ "" Hlen) as (first & second & middle & Hs).
      set (ext := last (split "." (name p)) "") in Hs.
      rewrite (derive_from_filename_parts _ _ _ _ _ Hs) in Hd.
      destruct (String.eqb_spec (lower ext) "cbor") as [Hext|]; [|discriminate].
      destruct (int_of_str first) as [slot|] eqn:Hint; [|discriminate].
      destruct (str_all is_hex second) eqn:Hhex; [|discriminate].
      injection Hd as <- <-.
      exists first, second, middle, ext.
      rewrite <- Hs. repeat split; try assumption.
      * symmetry. apply join_split.
      * apply split_free.
    + intros (first & second & middle & ext & Hname & Hfree & Hext & Hint
              & Hhex & ->).
      assert (Hs : split "." (name p) = first :: second :: middle ++ [ext]).
      { rewrite Hname. apply split_join; [discriminate | assumption]. }
      rewrite (derive_from_filename_parts _ _ _ _ _ Hs).
      now rewrite Hext, Hint, Hhex.
  - intros Hnone. unfold derive_from_filename in *.
    destruct (_ && _); [|reflexivity].
    destruct (int_of_str _) as [slot|]; [|reflexivity].
    destruct (str_all is_hex _); [|reflexivity].
    now contradiction (Hnone slot (lower (nth 1 (split "." (name p)) ""))).
Qed.

(* ------------------------------------------------------------------ *)
(** * The properties on the example files *)


(** C1.  A header whose block hash is an integer is not routed to the
    fallback path: [generate_manifest] raises [AttributeError] on the
    17-byte file [[1, {0: "conway", 1: 100, 2: 7}, []]], although the file
    is readable and far below the size ceiling. *)
Theorem integer_block_hash_raises :
  cbor2.load integer_hash
  = Some (PList [PInt 1;
                 PDict [(PInt 0, PStr "conway"); (PInt 1, PInt 100);
                        (PInt 2, PInt 7)];
                 PList []]) /\
  st_size (file_named "snapshot.cbor" integer_hash) = 17 /\
  parse_cbor_header cbor2.load (file_named "snapshot.cbor" integer_hash) 17
  = Raise AttributeError /\
  generate_manifest cbor2.load noon
    (file_named "snapshot.cbor" integer_hash) None None None
  = Raise AttributeError.
Proof. repeat split; vm_compute; reflexivity. Qed.

(** C3 as stated fails: with the override [--block-height 0] and the file
    [5.ab.cbor], the block height of the manifest is the 5 of the file
    name, not the override. *)
Lemma override_zero_loses_to_filename :
  derive_from_filename (file_named "5.ab.cbor" []) = (Some 5, Some "ab") /\
  generate_manifest cbor2.load noon (file_named "5.ab.cbor" [])
    None None (Some 0)
  = Ok (manifest_dict (PStr "conway") (PInt 5) "ab" sha256_of_nothing
          "2025-03-09T12:00:07Z" 0 false) /\
  getitem (manifest_dict (PStr "conway") (PInt 5) "ab" sha256_of_nothing
             "2025-03-09T12:00:07Z" 0 false) "block_height"
  <> Ok (PInt 0).
Proof.
  split; [reflexivity|]. split; [vm_compute; reflexivity|].
  vm_compute. discriminate.
Qed.

Lemma manifest_precedence_witness :
  file (file_named "5.ab.cbor" []) = Readable [] /\
  parse_cbor_header cbor2.load (file_named "5.ab.cbor" []) 0 = Ok None /\
  (exists m,
     generate_manifest cbor2.load noon (file_named "5.ab.cbor" [])
       (Some "babbage") (Some "AB12") (Some 7) = Ok m /\
     getitem m "era" = Ok (PStr "babbage") /\
     getitem m "block_height" = Ok (PInt 7) /\
     getitem m "block_hash" = Ok (PStr "ab12")) /\
  (exists m,
     generate_manifest cbor2.load noon
       (file_named "snapshot-small.cbor" small_snapshot)
       (Some "babbage") (Some "AB12") (Some 7) = Ok m /\
     getitem m "era" = Ok (PStr "conway") /\
     getitem m "block_height" = Ok (PInt 1000000)).
Proof.
  split; [reflexivity|]. split; [reflexivity|]. split.
  - destruct (manifest_precedence cbor2.load noon (file_named "5.ab.cbor" [])
                [] (Some "babbage") (Some "AB12") (Some 7) eq_refl)
      as [_ H].
    destruct (H eq_refl) as (m & Hm & He & Hh & Hb & _).
    exists m. split; [exact Hm|].
    split; [apply He; [reflexivity | discriminate] |].
    split; [apply Hh; [reflexivity | discriminate] |].
    apply (Hb "AB12"); [reflexivity | discriminate].
  - destruct (manifest_precedence cbor2.load noon
                (file_named "snapshot-small.cbor" small_snapshot)
                small_snapshot (Some "babbage") (Some "AB12") (Some 7) eq_refl)
      as [H _].
    destruct (H (header_dict (PInt 1) (PStr "conway") (PInt 1000000)
                   "11223344aaaaaaaaaaaaaaaaaaaaaaaaaaaaaaaaaaaaaaaaaaaaaaaaaaaaaaaa"
                   true))
      as (m & era & height & hash & Hm & He & Hme & Hh & Hmh & _).
    + vm_compute. reflexivity.
    + exists m. split; [exact Hm|].
      split; [rewrite Hme, <- He; reflexivity |].
      rewrite Hmh, <- Hh. reflexivity.
Defined.

(** C4 as stated fails: arrays of two and of four elements are decoded. *)
Lemma two_and_four_elements_accepted :
  cbor2.load two_elements = Some (PList [PInt 1; short_header]) /\
  parse_cbor_header cbor2.load (file_named "snapshot.cbor" two_elements) 18
  = Ok (Some (header_dict (PInt 1) (PStr "conway") (PInt 100) "0102" false)) /\
  cbor2.load four_elements
  = Some (PList [PInt 1; short_header; PList []; PList []]) /\
  parse_cbor_header cbor2.load (file_named "snapshot.cbor" four_elements) 20
  = Ok (Some (header_dict (PInt 1) (PStr "conway") (PInt 100) "0102" false)).
Proof. repeat split; vm_compute; reflexivity. Qed.

Lemma envelope_shape_witness :
  file (file_named "snapshot.cbor" two_elements) = Readable two_elements /\
  18 <= size_ceiling /\
  cbor2.load two_elements = Some (PList [PInt 1; short_header]) /\
  parse_cbor_header cbor2.load (file_named "snapshot.cbor" two_elements) 18
  = header_fields (PList [PInt 1; short_header; PList []]).
Proof.
  split; [reflexivity|].
  split; [vm_compute; discriminate|].
  split; [vm_compute; reflexivity|].
  assert (Hsize : 18 <= size_ceiling) by (vm_compute; discriminate).
  assert (Hload : cbor2.load two_elements = Some (PList [PInt 1; short_header]))
    by (vm_compute; reflexivity).
  destruct (envelope_shape cbor2.load (file_named "snapshot.cbor" two_elements)
              18 two_elements _ eq_refl Hsize Hload) as (_ & _ & _ & H).
  apply (H (PInt 1) short_header [] (PList [])). reflexivity.
Defined.



(** C6 as stated fails: a block hash of one byte is accepted, and so is
    an empty string for the block height. *)
Lemma short_block_hash_accepted :
  cbor2.load short_hash
  = Some (PList [PInt 1;
                 PDict [(PInt 0, PStr "conway"); (PInt 1, PStr "");
                        (PInt 2, PBytes (unhex "ff"))];
                 PList []]) /\
  parse_cbor_header cbor2.load (file_named "snapshot.cbor" short_hash) 17
  = Ok (Some (header_dict (PInt 1) (PStr "conway") (PStr "") "ff" false)).
Proof. repeat split; vm_compute; reflexivity. Qed.

Lemma header_required_fields_witness :
  file (file_named "snapshot.cbor" short_hash) = Readable short_hash /\
  17 <= size_ceiling /\
  parse_cbor_header cbor2.load (file_named "snapshot.cbor" short_hash) 17
  = Ok (Some (header_dict (PInt 1) (PStr "conway") (PStr "") "ff" false)).
Proof.
  split; [reflexivity|].
  split; [vm_compute; discriminate|].
  assert (Hsize : 17 <= size_ceiling) by (vm_compute; discriminate).
  assert (Hload : cbor2.load short_hash
                  = Some (PList [PInt 1;
                            PDict [(PInt 0, PStr "conway"); (PInt 1, PStr "");
                                   (PInt 2, PBytes (unhex "ff"))];
                            PList []]))
    by (vm_compute; reflexivity).
  destruct (header_required_fields cbor2.load
              (file_named "snapshot.cbor" short_hash) 17 short_hash
              _ _ _ eq_refl Hsize Hload) as (_ & H & _).
  apply (H (unhex "ff") 0 0);
    solve [reflexivity | discriminate].
Defined.

(** C7 as stated fails: an extension other than [cbor] yields nothing,
    and a first component with a sign yields a negative height. *)
Lemma other_extension_and_signed_slot :
  derive_from_filename (file_named "5.ab.txt" []) = (None, None) /\
  derive_from_filename (file_named "-5.ab.cbor" []) = (Some (-5), Some "ab").
Proof. split; reflexivity. Qed.

Lemma derive_from_filename_spec_witness :
  derive_from_filename (file_named "1000000.AABBcc.CBOR" [])
  = (Some 1000000, Some "aabbcc").
Proof.
  apply (proj1 (derive_from_filename_spec
                  (file_named "1000000.AABBcc.CBOR" []))).
  exists "1000000", "AABBcc", [], "CBOR".
  repeat split; try reflexivity.
  repeat constructor.
Defined.



Lemma governance_section_present_spec_witness :
  (exists m,
     generate_manifest cbor2.load noon
       (file_named "snapshot-small.cbor" small_snapshot) None None None = Ok m /\
     getitem m "governance_section_present" = Ok (PBool true)) /\
  (exists m,
     generate_manifest cbor2.load noon
       (file_named "snapshot.cbor" no_governance) None None None = Ok m /\
     getitem m "governance_section_present" = Ok (PBool false)) /\
  (exists m,
     generate_manifest cbor2.load noon (file_named "snapshot.bin" [])
       None None None = Ok m /\
     getitem m "governance_section_present" = Ok (PBool false)).
Proof.
  split; [|split].
  - destruct (governance_section_present_spec cbor2.load noon
                (file_named "snapshot-small.cbor" small_snapshot)
                small_snapshot None None None eq_refl) as [H _].
    refine (H (PInt 1) _ [PList []] _ 3 1 _ _ _ _ _);
      [ vm_compute; discriminate
      | vm_compute; reflexivity
      | vm_compute; reflexivity
      | reflexivity
      | reflexivity ].
  - destruct (governance_section_present_spec cbor2.load noon
                (file_named "snapshot.cbor" no_governance)
                no_governance None None None eq_refl) as [H _].
    refine (H (PInt 1) _ [PList []] _ 0 0 _ _ _ _ _);
      [ vm_compute; discriminate
      | vm_compute; reflexivity
      | vm_compute; reflexivity
      | reflexivity
      | reflexivity ].
  - destruct (governance_section_present_spec cbor2.load noon
                (file_named "snapshot.bin" []) [] None None None eq_refl)
      as [_ H].
    apply H. reflexivity.
Defined.


(* ------------------------------------------------------------------ *)
(** * Further properties of the script *)

(** ** Chunk sizes that are not positive *)



(** ** Where header parsing gives up, and where it raises *)

Section HeaderOutcome.

Variable cbor2_load : list byte -> option pyval.

(** X2.  [parse_cbor_header] returns [None], and does not raise, when
    the size is above 64 MiB (whatever the file holds), when the file
    cannot be opened, and when the decoder refuses the content.  The
    ceiling itself is still parsed: at exactly 64 MiB the result is the one
    of the decoded data. *)
Theorem parse_cbor_header_gives_up (p : Path) (size : Z) :
  (size_ceiling < size -> parse_cbor_header cbor2_load p size = Ok None) /\
  ((forall content, file p <> Readable content) ->
   parse_cbor_header cbor2_load p size = Ok None) /\
  (forall content, file p = Readable content ->
   cbor2_load content = None ->
   parse_cbor_header cbor2_load p size = Ok None) /\
  (forall content data, file p = Readable content ->
   cbor2_load content = Some data ->
   parse_cbor_header cbor2_load p size_ceiling = header_fields data).
Proof.
  repeat split.
  - apply parse_cbor_header_skipped.
  - intros Hf. unfold parse_cbor_header, open_rb.
    destruct (size_ceiling <? size); [reflexivity|].
    destruct (file p) as [|n|content]; try reflexivity.
    now contradiction (Hf content).
  - intros content. apply parse_cbor_header_undecodable.
  - intros content data Hf Hload.
    apply (parse_cbor_header_decoded _ _ _ _ _ Hf); [lia | assumption].
Qed.


(** Only a file that was read and decoded makes the parser raise. *)
Lemma parse_cbor_header_raise_readable (p : Path) (size : Z) (e : exn) :
  parse_cbor_header cbor2_load p size = Raise e ->
  exists content data,
    file p = Readable content /\ size <= size_ceiling /\
    cbor2_load content = Some data /\ header_fields data = Raise e.
Proof.
  unfold parse_cbor_header, open_rb.
  destruct (size_ceiling <? size) eqn:Hsize; [discriminate|].
  apply Z.ltb_ge in Hsize.
  destruct (file p) as [|n|content]; try discriminate.
  destruct (cbor2_load content) as [data|] eqn:Hload; [|discriminate].
  intros H. now exists content, data.
Qed.




End HeaderOutcome.

(** ** When a manifest is built, and what it always holds *)

Lemma truthy_first_given {A : Type} `{Truthy A} (a b : option A) (d : A) :
  truthy d = true -> truthy (first_given a b d) = true.
Proof.
  intros Hd. unfold first_given, given.
  destruct a as [x|]; [destruct (truthy x) eqn:Hx; [exact Hx|]|];
    (destruct b as [y|]; [destruct (truthy y) eqn:Hy; [exact Hy|]|]);
    exact Hd.
Qed.

Lemma first_given_cases {A : Type} `{Truthy A} (a b : option A) (d : A) :
  a = Some (first_given a b d) \/ b = Some (first_given a b d) \/
  first_given a b d = d.
Proof.
  unfold first_given, given.
  destruct a as [x|]; [destruct (truthy x); [now left|]|];
    (destruct b as [y|]; [destruct (truthy y); [right; now left|]|]);
    right; now right.
Qed.

Lemma lower_not_empty (s : string) : s <> "" -> lower s <> "".
Proof. destruct s; [contradiction | discriminate]. Qed.

Section ManifestOutcome.

Variable cbor2_load : list byte -> option pyval.
Variable now : datetime.

(** A file that exists and cannot be read: header parsing swallows the
    error, the digest does not. *)
Lemma generate_manifest_unreadable (p : Path) (n : Z) (e bh : option string)
    (ht : option Z) :
  file p = Unreadable n ->
  generate_manifest cbor2_load now p e bh ht = Raise PermissionError.
Proof.
  intros Hf. unfold generate_manifest, exists_. rewrite Hf. cbn [negb].
  destruct (parse_cbor_header cbor2_load p (st_size p)) as [[d|]|ex] eqn:Hp.
  - apply parse_cbor_header_some in Hp as (c & ? & Hc & _). congruence.
  - cbn [bind]. destruct (derive_from_filename p) as [slot hash].
    rewrite por_int, por_str, por_era by discriminate. cbn.
    unfold compute_sha256, open_rb. rewrite Hf. reflexivity.
  - apply parse_cbor_header_raise_readable in Hp as (c & ? & Hc & _).
    congruence.
Qed.

(** A readable file whose header parsing raises. *)
Lemma generate_manifest_parse_raises (p : Path) (content : list byte)
    (ex : exn) (e bh : option string) (ht : option Z) :
  file p = Readable content ->
  parse_cbor_header cbor2_load p (st_size p) = Raise ex ->
  generate_manifest cbor2_load now p e bh ht = Raise ex.
Proof.
  intros Hf Hp. unfold generate_manifest, exists_. now rewrite Hf, Hp.
Qed.

(** X4.  [generate_manifest] raises [FileNotFoundError] for a missing
    file and [PermissionError] for a file that cannot be read (from the
    digest, header parsing having swallowed the error); for a readable
    file it raises what [parse_cbor_header] raises, and returns a manifest
    whenever [parse_cbor_header] returns. *)
Theorem generate_manifest_outcome (p : Path) (e bh : option string)
    (ht : option Z) :
  match file p with
  | Missing =>
      generate_manifest cbor2_load now p e bh ht = Raise FileNotFoundError
  | Unreadable _ =>
      generate_manifest cbor2_load now p e bh ht = Raise PermissionError
  | Readable _ =>
      match parse_cbor_header cbor2_load p (st_size p) with
      | Raise ex => generate_manifest cbor2_load now p e bh ht = Raise ex
      | Ok _ => exists m, generate_manifest cbor2_load now p e bh ht = Ok m
      end
  end.
Proof.
  destruct (file p) as [|n|content] eqn:Hf.
  - now apply generate_manifest_missing.
  - now apply (generate_manifest_unreadable _ n).
  - destruct (parse_cbor_header cbor2_load p (st_size p)) as [[d|]|ex] eqn:Hp.
    + destruct (parse_cbor_header_some _ _ _ _ Hp)
        as (c & data & _ & _ & _ & Hfields).
      destruct (header_fields_some _ _ Hfields)
        as (v & h & rest & bs & g & _ & _ & _ & _ & _ & ->).
      eexists. apply (generate_manifest_from_header _ _ _ _ _ _ _ _ _ _ _ _ Hf Hp).
    + eexists. apply (generate_manifest_fallback _ _ _ _ _ _ _ Hf Hp).
    + now apply (generate_manifest_parse_raises _ content).
Qed.

(** X5.  The integrity fields of a manifest depend on the content of the
    file alone: whenever a manifest is built, by either path and whatever
    the overrides and the file name are, its sha256 is the digest of the
    content, its size_bytes the number of bytes, and its created_at the
    time of the call. *)
Theorem manifest_integrity_fields (p : Path) (e bh : option string)
    (ht : option Z) (m : pyval) :
  generate_manifest cbor2_load now p e bh ht = Ok m ->
  exists content,
    file p = Readable content /\
    getitem m "sha256" = Ok (PStr (sha256_hex content)) /\
    getitem m "size_bytes" = Ok (PInt (Z.of_nat (List.length content))) /\
    getitem m "created_at" = Ok (PStr (strftime now)).
Proof.
  intros Hgen.
  destruct (generate_manifest_ok _ _ _ _ _ _ _ Hgen) as (content & Hf & Hcases).
  exists content. split; [assumption|].
  assert (Hsize : st_size p = Z.of_nat (List.length content)).
  { unfold st_size. now rewrite Hf. }
  destruct Hcases as [Hp | (v & h & rest & bs & g & _ & _ & _ & _ & Hp)].
  - rewrite (generate_manifest_fallback _ _ _ _ e bh ht Hf Hp) in Hgen.
    injection Hgen as <-. rewrite Hsize.
    split; [reflexivity|]. split; reflexivity.
  - rewrite (generate_manifest_from_header _ _ _ _ _ _ _ _ _ e bh ht Hf Hp)
      in Hgen.
    injection Hgen as <-. rewrite Hsize.
    split; [reflexivity|]. split; reflexivity.
Qed.

(** X6.  In the fallback path no field of the manifest is left empty:
    the era and the block hash are strings that are not empty, the block
    hash in lower case, and the block height is an integer other than 0.
    It is positive when neither the override nor the file name gives a
    negative height; a negative one is passed on. *)
Theorem fallback_fields_not_empty (p : Path) (content : list byte)
    (e bh : option string) (ht : option Z) :
  file p = Readable content ->
  parse_cbor_header cbor2_load p (st_size p) = Ok None ->
  exists m era height hash,
    generate_manifest cbor2_load now p e bh ht = Ok m /\
    getitem m "era" = Ok (PStr era) /\ era <> "" /\
    getitem m "block_height" = Ok (PInt height) /\ height <> 0 /\
    getitem m "block_hash" = Ok (PStr hash) /\ hash <> "" /\
    lower hash = hash /\
    ((forall n, ht = Some n -> 0 <= n) ->
     (forall n, fst (derive_from_filename p) = Some n -> 0 <= n) ->
     0 < height) /\
    (forall n, ht = Some n -> n < 0 -> height = n).
Proof.
  intros Hf Hp.
  exists (manifest_dict
            (PStr (first_given e None "conway"))
            (PInt (first_given ht (fst (derive_from_filename p)) 1))
            (lower (first_given bh (snd (derive_from_filename p)) "unknown"))
            (sha256_hex content) (strftime now) (st_size p) false).
  exists (first_given e None "conway"),
    (first_given ht (fst (derive_from_filename p)) 1),
    (lower (first_given bh (snd (derive_from_filename p)) "unknown")).
  assert (Hne : forall a b (d : string), d <> "" -> first_given a b d <> "").
  { intros a b d Hd Heq.
    assert (Ht : truthy (first_given a b d) = true).
    { apply truthy_first_given. destruct d; [contradiction | reflexivity]. }
    rewrite Heq in Ht. discriminate. }
  assert (Hnz : first_given ht (fst (derive_from_filename p)) 1 <> 0).
  { intros Heq.
    assert (Ht : truthy (first_given ht (fst (derive_from_filename p)) 1)
                 = true) by now apply truthy_first_given.
    rewrite Heq in Ht. discriminate. }
  split; [apply (generate_manifest_fallback _ _ _ _ _ _ _ Hf Hp)|].
  split; [reflexivity|]. split; [apply Hne; discriminate|].
  split; [reflexivity|]. split; [exact Hnz|].
  split; [reflexivity|].
  split; [apply lower_not_empty, Hne; discriminate|].
  split; [apply lower_idempotent|]. split.
  - intros Hht Hslot.
    destruct (first_given_cases ht (fst (derive_from_filename p)) 1)
      as [H | [H | H]].
    + specialize (Hht _ H). lia.
    + specialize (Hslot _ H). lia.
    + lia.
  - intros n -> Hn. unfold first_given.
    rewrite given_some_Z by lia. reflexivity.
Qed.

End ManifestOutcome.

Lemma parse_cbor_header_gives_up_witness :
  parse_cbor_header cbor2.load
    (file_named "snapshot-small.cbor" small_snapshot) (size_ceiling + 1)
  = Ok None /\
  parse_cbor_header cbor2.load
    {| name := "snapshot-small.cbor"; file := Missing |} 59
  = Ok None /\
  parse_cbor_header cbor2.load (file_named "empty.cbor" []) 0 = Ok None /\
  parse_cbor_header cbor2.load
    (file_named "snapshot.cbor" two_elements) size_ceiling
  = header_fields (PList [PInt 1; short_header]).
Proof.
  split; [|split; [|split]].
  - apply (proj1 (parse_cbor_header_gives_up cbor2.load _ _)). reflexivity.
  - apply (proj1 (proj2 (parse_cbor_header_gives_up cbor2.load _ _))).
    discriminate.
  - apply (proj1 (proj2 (proj2 (parse_cbor_header_gives_up cbor2.load
                                  (file_named "empty.cbor" []) 0))) []);
      reflexivity.
  - apply (proj2 (proj2 (proj2 (parse_cbor_header_gives_up cbor2.load
                                  (file_named "snapshot.cbor" two_elements) 0)))
             two_elements); reflexivity.
Defined.


Lemma generate_manifest_outcome_witness :
  generate_manifest cbor2.load noon
    {| name := "snapshot.cbor"; file := Unreadable 59 |} None None None
  = Raise PermissionError /\
  generate_manifest cbor2.load noon
    {| name := "snapshot.cbor"; file := Missing |} None None None
  = Raise FileNotFoundError.
Proof.
  split.
  - exact (generate_manifest_outcome cbor2.load noon
             {| name := "snapshot.cbor"; file := Unreadable 59 |}
             None None None).
  - exact (generate_manifest_outcome cbor2.load noon
             {| name := "snapshot.cbor"; file := Missing |} None None None).
Defined.

Lemma manifest_integrity_fields_witness :
  exists content,
    file (file_named "snapshot.cbor" version_two) = Readable content /\
    getitem
      (manifest_dict (PStr "conway") (PInt 100) "0102"
         "32aab8f45aeb7006a1cf4fde050ddd4ac70211ccb61902bae9df0a967ca2bbed"
         "2025-03-09T12:00:07Z" 19 false) "sha256"
    = Ok (PStr (sha256_hex content)) /\
    getitem
      (manifest_dict (PStr "conway") (PInt 100) "0102"
         "32aab8f45aeb7006a1cf4fde050ddd4ac70211ccb61902bae9df0a967ca2bbed"
         "2025-03-09T12:00:07Z" 19 false) "size_bytes"
    = Ok (PInt (Z.of_nat (List.length content))) /\
    getitem
      (manifest_dict (PStr "conway") (PInt 100) "0102"
         "32aab8f45aeb7006a1cf4fde050ddd4ac70211ccb61902bae9df0a967ca2bbed"
         "2025-03-09T12:00:07Z" 19 false) "created_at"
    = Ok (PStr (strftime noon)).
Proof.
  apply (manifest_integrity_fields cbor2.load noon
           (file_named "snapshot.cbor" version_two) None (Some "ff") (Some 3)).
  vm_compute. reflexivity.
Defined.

Lemma fallback_fields_not_empty_witness :
  file (file_named "-5.ab.cbor" []) = Readable [] /\
  parse_cbor_header cbor2.load (file_named "-5.ab.cbor" []) 0 = Ok None /\
  exists m era height hash,
    generate_manifest cbor2.load noon (file_named "-5.ab.cbor" [])
      (Some "") None (Some 0) = Ok m /\
    getitem m "era" = Ok (PStr era) /\ era <> "" /\
    getitem m "block_height" = Ok (PInt height) /\ height <> 0 /\
    getitem m "block_hash" = Ok (PStr hash) /\ hash <> "" /\
    lower hash = hash.
Proof.
  split; [reflexivity|]. split; [reflexivity|].
  destruct (fallback_fields_not_empty cbor2.load noon
              (file_named "-5.ab.cbor" []) [] (Some "") None (Some 0)
              eq_refl eq_refl)
    as (m & era & height & hash & Hm & He & Hene & Hh & Hnz & Hb & Hbne
        & Hlow & _).
  exists m, era, height, hash. repeat split; assumption.
Defined.

(** ** What the file name yields *)

(** X9.  [derive_from_filename] yields both values or neither, and a
    block hash it yields is made of the characters [0-9a-f] only. *)
Theorem derive_from_filename_result (p : Path) :
  match derive_from_filename p with
  | (Some _, Some h) => str_all is_lower_hex h = true /\ lower h = h
  | (None, None) => True
  | _ => False
  end.
Proof.
  unfold derive_from_filename.
  destruct (_ && _); [|exact I].
  destruct (int_of_str _); [|exact I].
  destruct (str_all is_hex _) eqn:Hhex; [|exact I].
  split; [now apply lower_hex | apply lower_idempotent].
Qed.

Lemma eqb_lower_char_dot (c : ascii) :
  Ascii.eqb (lower_char c) "." = Ascii.eqb c ".".
Proof. destruct c as [[] [] [] [] [] [] [] []]; vm_compute; reflexivity. Qed.

Lemma eqb_lower_char_underscore (c : ascii) :
  Ascii.eqb (lower_char c) "_" = Ascii.eqb c "_".
Proof. destruct c as [[] [] [] [] [] [] [] []]; vm_compute; reflexivity. Qed.

Lemma is_space_lower_char (c : ascii) : is_space (lower_char c) = is_space c.
Proof. destruct c as [[] [] [] [] [] [] [] []]; vm_compute; reflexivity. Qed.

Lemma digit_of_lower_char (c : ascii) : digit_of (lower_char c) = digit_of c.
Proof. destruct c as [[] [] [] [] [] [] [] []]; vm_compute; reflexivity. Qed.

Lemma is_hex_lower_char (c : ascii) : is_hex (lower_char c) = is_hex c.
Proof. destruct c as [[] [] [] [] [] [] [] []]; vm_compute; reflexivity. Qed.

Lemma split_lower (s : string) :
  split "." (lower s) = map lower (split "." s).
Proof.
  induction s as [|c s IH]; [reflexivity|].
  cbn [lower split]. rewrite eqb_lower_char_dot, IH.
  destruct (Ascii.eqb c "."); [reflexivity|].
  now destruct (split "." s).
Qed.

Lemma last_map_lower (l : list string) :
  last (map lower l) "" = lower (last l "").
Proof.
  induction l as [|x [|y l] IH]; try reflexivity.
  exact IH.
Qed.

Lemma nth_map_lower (i : nat) (l : list string) :
  nth i (map lower l) "" = lower (nth i l "").
Proof. exact (map_nth lower l "" i). Qed.

Lemma str_all_space_lower (s : string) :
  str_all is_space (lower s) = str_all is_space s.
Proof.
  induction s as [|c s IH]; [reflexivity|].
  cbn [lower str_all]. now rewrite is_space_lower_char, IH.
Qed.

Lemma str_all_hex_lower (s : string) :
  str_all is_hex (lower s) = str_all is_hex s.
Proof.
  induction s as [|c s IH]; [reflexivity|].
  cbn [lower str_all]. now rewrite is_hex_lower_char, IH.
Qed.

Lemma lstrip_lower (s : string) : lstrip (lower s) = lower (lstrip s).
Proof.
  induction s as [|c s IH]; [reflexivity|].
  cbn [lower lstrip]. rewrite is_space_lower_char.
  destruct (is_space c); [exact IH | reflexivity].
Qed.

Lemma int_digits_lower (s : string) (acc : Z) (count : nat) (b : bool) :
  int_digits (lower s) acc count b = int_digits s acc count b.
Proof.
  revert acc count b.
  induction s as [|c s IH]; intros acc count b; [reflexivity|].
  cbn [lower int_digits].
  rewrite digit_of_lower_char, eqb_lower_char_underscore.
  change (String (lower_char c) (lower s)) with (lower (String c s)).
  rewrite str_all_space_lower.
  destruct (digit_of c) as [d|]; [apply IH|].
  destruct (Ascii.eqb c "_"); [|reflexivity].
  destruct b; [apply IH | reflexivity].
Qed.

Lemma int_of_str_lower (s : string) : int_of_str (lower s) = int_of_str s.
Proof.
  unfold int_of_str. rewrite lstrip_lower.
  destruct (lstrip s) as [|c t]; [reflexivity|].
  cbn [lower].
  destruct c as [[] [] [] [] [] [] [] []]; cbn;
    rewrite ?int_digits_lower, ?str_all_space_lower; reflexivity.
Qed.

(** X8.  The letter case of the file name plays no part: the name in
    lower case yields what the name yields. *)
Theorem derive_from_filename_case_insensitive (p : Path) :
  derive_from_filename {| name := lower (name p); file := file p |}
  = derive_from_filename p.
Proof.
  unfold derive_from_filename. cbn [name].
  rewrite split_lower, length_map, last_map_lower, lower_idempotent.
  rewrite !nth_map_lower, int_of_str_lower, str_all_hex_lower, lower_idempotent.
  reflexivity.
Qed.

(** ** The block hash in hexadecimal *)






Lemma derive_from_filename_result_witness :
  derive_from_filename (file_named "1000000.AABBcc.CBOR" [])
  = (Some 1000000, Some "aabbcc") /\
  str_all is_lower_hex "aabbcc" = true.
Proof.
  split; [reflexivity|].
  exact (proj1 (derive_from_filename_result
                  (file_named "1000000.AABBcc.CBOR" []))).
Defined.

Lemma derive_from_filename_case_insensitive_witness :
  derive_from_filename (file_named "1000000.aabbcc.cbor" [])
  = derive_from_filename (file_named "1000000.AABBcc.CBOR" []).
Proof.
  exact (derive_from_filename_case_insensitive
           (file_named "1000000.AABBcc.CBOR" [])).
Defined.


(** ** The naming convention, read back *)

Lemma digit_char_facts (n : Z) :
  digit_of (digit_char n) = Some (n mod 10) /\
  is_space (digit_char n) = false /\
  Ascii.eqb (digit_char n) "+" = false /\
  Ascii.eqb (digit_char n) "-" = false /\
  Ascii.eqb (digit_char n) "." = false.
Proof.
  unfold digit_char.
  assert (Hm : 0 <= n mod 10 < Z.of_nat 10) by (apply Z.mod_pos_bound; lia).
  pose proof (forall_below
    (fun k => match digit_of (chr (48 + k)) with
              | Some d => d =? k
              | None => false
              end
              && negb (is_space (chr (48 + k)))
              && negb (Ascii.eqb (chr (48 + k)) "+")
              && negb (Ascii.eqb (chr (48 + k)) "-")
              && negb (Ascii.eqb (chr (48 + k)) ".")) 10 eq_refl _ Hm) as H.
  cbv beta in H.
  repeat (apply andb_prop in H as [H ?]).
  destruct (digit_of (chr (48 + n mod 10))) as [d|]; [|discriminate].
  apply Z.eqb_eq in H. subst d.
  repeat split; now apply negb_true_iff.
Qed.

Lemma pow10_succ (k : nat) : 10 ^ Z.of_nat (S k) = 10 * 10 ^ Z.of_nat k.
Proof. rewrite Nat2Z.inj_succ. apply Z.pow_succ_r. lia. Qed.

(** Reading the decimal digits of a number back gives the number, and
    counts as many digits as the number has. *)
Lemma int_digits_decimal (fuel : nat) :
  forall (n : Z) (acc : string),
    0 <= n < 10 ^ Z.of_nat (S fuel) ->
    exists k : nat,
      (k = 1%nat \/ 10 ^ Z.of_nat (k - 1) <= n) /\
      forall a c b,
        int_digits (decimal (S fuel) n acc) a c b
        = int_digits acc (a * 10 ^ Z.of_nat k + n) (c + k) true.
Proof.
  induction fuel as [|fuel IH]; intros n acc Hn.
  - exists 1%nat. split; [now left|]. intros a c b.
    change (10 ^ Z.of_nat 1) with 10 in *.
    cbn [decimal]. replace (n <? 10) with true by (symmetry; apply Z.ltb_lt; lia).
    cbn [int_digits].
    destruct (digit_char_facts n) as (-> & _).
    rewrite Z.mod_small by lia.
    replace (c + 1)%nat with (S c) by lia.
    f_equal. lia.
  - cbn [decimal]. destruct (Z.ltb_spec n 10) as [Hlt|Hge].
    + exists 1%nat. split; [now left|]. intros a c b.
      change (10 ^ Z.of_nat 1) with 10.
      cbn [int_digits].
      destruct (digit_char_facts n) as (-> & _).
      rewrite Z.mod_small by lia.
      replace (c + 1)%nat with (S c) by lia.
      f_equal. lia.
    + rewrite pow10_succ in Hn.
      destruct (IH (n / 10) (String (digit_char n) acc)) as (k & Hk & Hread).
      { split; [apply Z.div_pos; lia | apply Z.div_lt_upper_bound; lia]. }
      exists (S k). split.
      * right. replace (S k - 1)%nat with k by lia.
        destruct Hk as [-> | Hk].
        -- change (10 ^ Z.of_nat 1) with 10. lia.
        -- destruct k as [|k]; [cbn in *; lia|].
           replace (S k - 1)%nat with k in Hk by lia.
           rewrite pow10_succ.
           pose proof (Z.mul_div_le n 10). lia.
      * intros a c b. rewrite Hread. cbn [int_digits].
        destruct (digit_char_facts n) as (-> & _).
        rewrite pow10_succ.
        replace (c + S k)%nat with (S (c + k)) by lia.
        f_equal.
        pose proof (Z.div_mod n 10). lia.
Qed.

Lemma decimal_head (fuel : nat) (n : Z) (acc : string) :
  exists d rest, decimal (S fuel) n acc = String (digit_char d) rest.
Proof.
  revert n acc. induction fuel as [|fuel IH]; intros n acc.
  - cbn [decimal]. destruct (n <? 10); now eexists _, _.
  - cbn [decimal] in *. destruct (n <? 10); [now eexists _, _|].
    apply IH.
Qed.

Lemma decimal_free_of_dot (fuel : nat) (n : Z) (acc : string) :
  free_of "." (decimal fuel n acc) = free_of "." acc.
Proof.
  revert n acc. induction fuel as [|fuel IH]; intros n acc; [reflexivity|].
  cbn [decimal].
  assert (Hstep : free_of "." (String (digit_char n) acc) = free_of "." acc).
  { unfold free_of. cbn [str_all].
    destruct (digit_char_facts n) as (_ & _ & _ & _ & ->). reflexivity. }
  destruct (n <? 10); [exact Hstep|]. now rewrite IH.
Qed.

Lemma str_of_nonneg_bound (n : Z) :
  0 <= n -> n < 10 ^ Z.of_nat (S (Z.to_nat (Z.log2 n))).
Proof.
  intros Hn.
  rewrite Nat2Z.inj_succ, Z2Nat.id by apply Z.log2_nonneg.
  destruct (Z.eq_dec n 0) as [->|Hnz]; [reflexivity|].
  destruct (Z.log2_spec n) as [_ Hup]; [lia|].
  apply (Z.lt_le_trans _ _ _ Hup).
  apply Z.pow_le_mono_l. pose proof (Z.log2_nonneg n). lia.
Qed.

(** [int] reads a string whose first character is neither white space
    nor a sign from that character on. *)
Lemma int_of_str_unsigned (c : ascii) (t : string) :
  is_space c = false -> Ascii.eqb c "+" = false -> Ascii.eqb c "-" = false ->
  int_of_str (String c t) =
  match int_digits (String c t) 0 0 false with
  | Some (n, count) =>
      if Nat.leb count int_max_str_digits then Some (1 * n) else None
  | None => None
  end.
Proof.
  destruct c as [[] [] [] [] [] [] [] []]; vm_compute is_space;
    vm_compute Ascii.eqb; intros H1 H2 H3;
    solve [discriminate | reflexivity].
Qed.

Lemma int_of_str_str_of_nonneg (n : Z) :
  0 <= n < 10 ^ 4300 -> int_of_str (str_of_nonneg n) = Some n.
Proof.
  intros [Hn0 Hn]. unfold str_of_nonneg.
  destruct (decimal_head (Z.to_nat (Z.log2 n)) n "") as (d & rest & Hhead).
  destruct (int_digits_decimal (Z.to_nat (Z.log2 n)) n "")
    as (k & Hk & Hread).
  { split; [assumption | now apply str_of_nonneg_bound]. }
  destruct (digit_char_facts d) as (_ & Hs & Hp & Hm & _).
  rewrite Hhead, (int_of_str_unsigned _ _ Hs Hp Hm), <- Hhead, Hread.
  cbn [int_digits Nat.add].
  replace (Nat.leb k int_max_str_digits) with true.
  - f_equal. clear Hn Hk. lia.
  - symmetry. apply Nat.leb_le. unfold int_max_str_digits.
    destruct Hk as [-> | Hk]; [clear Hn; lia|].
    assert (Hlt : 10 ^ Z.of_nat (k - 1) < 10 ^ 4300)
      by exact (Z.le_lt_trans _ _ _ Hk Hn).
    clear Hn Hk.
    apply Z.pow_lt_mono_r_iff in Hlt; [lia | reflexivity | discriminate].
Qed.

Lemma free_of_dot_hex (s : string) :
  str_all is_hex s = true -> free_of "." s = true.
Proof.
  unfold free_of. induction s as [|c s IH]; [reflexivity|].
  cbn [str_all]. intros H. apply andb_prop in H as [Hc Hs].
  rewrite (IH Hs), andb_true_r.
  destruct c as [[] [] [] [] [] [] [] []]; vm_compute in Hc |- *;
    solve [reflexivity | discriminate Hc].
Qed.

Lemma free_of_dot_lower (s : string) :
  free_of "." (lower s) = free_of "." s.
Proof.
  unfold free_of. induction s as [|c s IH]; [reflexivity|].
  cbn [lower str_all]. now rewrite eqb_lower_char_dot, IH.
Qed.

(** X7.  A file named by the convention of the docstring,
    [<slot>.<hash>.cbor], the slot being a natural number written in
    decimal (of at most 4300 digits), the hash hexadecimal digits and the
    extension [cbor] in any letter case, yields exactly its slot and its
    hash in lower case. *)
Theorem derive_from_filename_convention (n : Z) (h ext : string)
    (f : file_state) :
  0 <= n < 10 ^ 4300 -> str_all is_hex h = true -> lower ext = "cbor" ->
  derive_from_filename
    {| name := (str_of_int n ++ "." ++ h ++ "." ++ ext)%string; file := f |}
  = (Some n, Some (lower h)).
Proof.
  intros Hn Hhex Hext.
  assert (Hstr : str_of_int n = str_of_nonneg n).
  { unfold str_of_int.
    now replace (n <? 0) with false by (symmetry; apply Z.ltb_ge; lia). }
  rewrite Hstr.
  assert (Hsplit :
    split "." (str_of_nonneg n ++ "." ++ h ++ "." ++ ext)%string
    = str_of_nonneg n :: h :: [] ++ [ext]).
  { apply (split_join "." [str_of_nonneg n; h; ext]); [discriminate|].
    repeat constructor.
    - unfold str_of_nonneg. now rewrite decimal_free_of_dot.
    - now apply free_of_dot_hex.
    - now rewrite <- free_of_dot_lower, Hext. }
  rewrite (derive_from_filename_parts
             {| name := (str_of_nonneg n ++ "." ++ h ++ "." ++ ext)%string;
                file := f |} _ _ [] _ Hsplit).
  now rewrite Hext, int_of_str_str_of_nonneg, Hhex.
Qed.

Lemma derive_from_filename_convention_witness :
  derive_from_filename (file_named "1000000.AABBcc.CBOR" [])
  = (Some 1000000, Some "aabbcc").
Proof.
  apply (derive_from_filename_convention 1000000 "AABBcc" "CBOR" (Readable []));
    [split; [discriminate | vm_compute; reflexivity]
    | reflexivity | reflexivity].
Defined.

(* ------------------------------------------------------------------ *)
(** * The command line and its output *)


(** ** The characters of the output *)

Lemma str_all_app (P : ascii -> bool) (a b : string) :
  str_all P (a ++ b)%string = str_all P a && str_all P b.
Proof.
  induction a as [|c a IH]; [reflexivity|].
  cbn [String.append str_all]. now rewrite IH, andb_assoc.
Qed.

Lemma str_all_impl (P Q : ascii -> bool) (s : string) :
  (forall c, P c = true -> Q c = true) ->
  str_all P s = true -> str_all Q s = true.
Proof.
  intros HPQ. induction s as [|c s IH]; [reflexivity|].
  cbn [str_all]. intros H. apply andb_prop in H as [Hc Hs].
  now rewrite (HPQ c Hc), IH.
Qed.

Lemma str_all_join (P : ascii -> bool) (sep : string) (parts : list string) :
  str_all P sep = true -> Forall (fun s => str_all P s = true) parts ->
  str_all P (join sep parts) = true.
Proof.
  intros Hsep Hparts.
  induction Hparts as [|p [|q rest] Hp Hrest IH]; [reflexivity|exact Hp|].
  change (join sep (p :: q :: rest))
    with (p ++ sep ++ join sep (q :: rest))%string.
  now rewrite !str_all_app, Hp, Hsep, IH.
Qed.

Lemma printable_not_newline (c : ascii) :
  is_printable c = true -> negb (Ascii.eqb c json.newline) = true.
Proof.
  destruct c as [[] [] [] [] [] [] [] []]; vm_compute;
    intros H; solve [reflexivity | discriminate H].
Qed.

Lemma printable_output_char (c : ascii) :
  is_printable c = true -> is_output_char c = true.
Proof. unfold is_output_char. now intros ->. Qed.

Lemma escape_char_printable (c : ascii) :
  str_all is_printable (json.escape_char c) = true.
Proof. destruct c as [[] [] [] [] [] [] [] []]; vm_compute; reflexivity. Qed.

Lemma encode_str_printable (s : string) :
  str_all is_printable (json.encode_str s) = true.
Proof.
  unfold json.encode_str. cbn [str_all]. rewrite str_all_app.
  assert (H : str_all is_printable (json.escape s) = true).
  { induction s as [|c s IH]; [reflexivity|].
    cbn [json.escape]. now rewrite str_all_app, escape_char_printable, IH. }
  now rewrite H.
Qed.

Lemma digit_char_printable (n : Z) : is_printable (digit_char n) = true.
Proof.
  pose proof (is_digit_digit_char n) as H. unfold is_digit in H.
  apply andb_prop in H as [H1 H2]. unfold is_printable.
  apply Z.leb_le in H1, H2.
  apply andb_true_intro. split; apply Z.leb_le; lia.
Qed.

Lemma decimal_printable (fuel : nat) (n : Z) (acc : string) :
  str_all is_printable acc = true ->
  str_all is_printable (decimal fuel n acc) = true.
Proof.
  revert n acc. induction fuel as [|fuel IH]; intros n acc Hacc; [exact Hacc|].
  cbn [decimal].
  assert (Hstep : str_all is_printable (String (digit_char n) acc) = true).
  { cbn [str_all]. now rewrite digit_char_printable, Hacc. }
  destruct (n <? 10); [exact Hstep | now apply IH].
Qed.

Lemma str_of_int_printable (n : Z) :
  str_all is_printable (str_of_int n) = true.
Proof.
  unfold str_of_int, str_of_nonneg.
  destruct (n <? 0); [cbn [str_all]; rewrite decimal_printable|
                      apply decimal_printable]; reflexivity.
Qed.

Lemma spaces_printable (n : nat) : str_all is_printable (json.spaces n) = true.
Proof. induction n as [|n IH]; [reflexivity|]. cbn. exact IH. Qed.

Lemma newline_indent_output (indent level : nat) :
  str_all is_output_char (json.newline_indent indent level) = true.
Proof.
  unfold json.newline_indent. cbn [str_all].
  rewrite (str_all_impl _ _ _ printable_output_char (spaces_printable _)).
  reflexivity.
Qed.

Lemma block_output (indent level : nat) (items : list string) :
  Forall (fun s => str_all is_output_char s = true) items ->
  str_all is_output_char (json.block indent level items) = true.
Proof.
  intros H. unfold json.block.
  rewrite !str_all_app, !newline_indent_output, str_all_join;
    [reflexivity | | assumption].
  cbn [str_all]. now rewrite newline_indent_output.
Qed.

(** The encoder writes printable ASCII and new lines only. *)
Lemma encode_output_chars (v : pyval) :
  forall indent level text,
    json.encode indent level v = Ok text ->
    str_all is_output_char text = true.
Proof.
  induction v as [|b|n|bs|s|xs IH|kvs IH] using pyval_nested_ind;
    intros indent level text; cbn [json.encode].
  - now intros [= <-].
  - destruct b; now intros [= <-].
  - intros [= <-].
    apply (str_all_impl _ _ _ printable_output_char), str_of_int_printable.
  - discriminate.
  - intros [= <-].
    apply (str_all_impl _ _ _ printable_output_char), encode_str_printable.
  - destruct xs as [|x xs]; [now intros [= <-]|].
    set (items := fix items (l : list pyval) : res (list string) := _).
    assert (H : forall r, items (x :: xs) = Ok r ->
                Forall (fun s => str_all is_output_char s = true) r).
    { induction IH as [|y l Hy Hl IHl]; intros r.
      - intros [= <-]. constructor.
      - cbn [items]. fold items. specialize (Hy indent (S level)).
        destruct (json.encode indent (S level) y) as [sy|e]; [|discriminate].
        destruct (items l) as [rl|e]; [|discriminate].
        intros [= <-]. constructor; [now apply Hy | now apply IHl]. }
    cbn [items] in H. fold items in H.
    destruct (json.encode indent (S level) x) as [sx|e]; [|discriminate].
    destruct (items xs) as [r|e]; [|discriminate].
    intros Ht.
    replace text with (String "[" (json.block indent level (sx :: r) ++ "]"))%string
      by congruence.
    cbn [str_all]. rewrite str_all_app, block_output.
    + reflexivity.
    + now apply H.
  - destruct kvs as [|[k x] kvs]; [now intros [= <-]|].
    set (members := fix members (l : list (pyval * pyval))
                      : res (list string) := _).
    assert (H : forall r, members ((k, x) :: kvs) = Ok r ->
                Forall (fun s => str_all is_output_char s = true) r).
    { induction IH as [|[k' y] l Hy Hl IHl]; intros r.
      - intros [= <-]. constructor.
      - cbn [members]. fold members. cbn [snd] in Hy.
        specialize (Hy indent (S level)).
        destruct (json.key_str k') as [ks|e]; [|discriminate].
        destruct (json.encode indent (S level) y) as [sy|e]; [|discriminate].
        destruct (members l) as [rl|e]; [|discriminate].
        intros Hr.
        assert (Hr' : r = (json.encode_str ks ++ ": " ++ sy)%string :: rl)
          by congruence.
        subst r. constructor; [|now apply IHl].
        rewrite !str_all_app.
        rewrite (str_all_impl _ _ _ printable_output_char
                   (encode_str_printable ks)).
        now rewrite (Hy sy eq_refl). }
    cbn [members] in H. fold members in H.
    destruct (json.key_str k) as [ks|e]; [|discriminate].
    destruct (json.encode indent (S level) x) as [sx|e]; [|discriminate].
    destruct (members kvs) as [r|e]; [|discriminate].
    intros Ht.
    replace text
      with (String "{" (json.block indent level
                          ((json.encode_str ks ++ ": " ++ sx)%string :: r)
                        ++ "}"))%string
      by congruence.
    cbn [str_all]. rewrite str_all_app, block_output.
    + reflexivity.
    + now apply H.
Qed.

(** ** The printed manifest *)

Lemma append_assoc (a b c : string) :
  ((a ++ b) ++ c)%string = (a ++ b ++ c)%string.
Proof.
  induction a as [|x a IH]; [reflexivity|].
  cbn [String.append]. now rewrite IH.
Qed.

Lemma append_empty (a : string) : (a ++ "")%string = a.
Proof.
  induction a as [|x a IH]; [reflexivity|].
  cbn [String.append]. now rewrite IH.
Qed.

(** The text of a manifest, given the texts of its era and block
    height; the encoder raises where it raises on one of the two. *)
Lemma dumps_manifest_dict (era height : pyval) (hash sha t : string)
    (size : Z) (g : bool) :
  json.dumps (manifest_dict era height hash sha t size g) 4 =
  match json.encode 4 1 era with
  | Ok era_text =>
      match json.encode 4 1 height with
      | Ok height_text =>
          Ok (join (String json.newline "")
                (manifest_lines era_text height_text hash sha t size g))
      | Raise e => Raise e
      end
  | Raise e => Raise e
  end.
Proof.
  unfold json.dumps, manifest_dict.
  destruct g; cbn [json.encode json.key_str];
    (destruct (json.encode 4 1 era) as [era_text|e]; [|reflexivity]);
    (destruct (json.encode 4 1 height) as [height_text|e]; [|reflexivity]);
    f_equal;
    unfold manifest_lines, member_line, json.block, json.newline_indent;
    cbn [join json.spaces Nat.mul Nat.add];
    repeat rewrite append_assoc; cbn [String.append];
    repeat rewrite append_assoc; reflexivity.
Qed.

Lemma join_snoc_empty (sep : string) (l : list string) :
  l <> [] -> join sep (l ++ [""]) = (join sep l ++ sep)%string.
Proof.
  induction l as [|p [|q rest] IH]; intros Hne.
  - contradiction.
  - cbn [app join]. now rewrite append_empty.
  - change (join sep ((p :: q :: rest) ++ [""]))
      with (p ++ sep ++ join sep ((q :: rest) ++ [""]))%string.
    rewrite IH by discriminate.
    change (join sep (p :: q :: rest))
      with (p ++ sep ++ join sep (q :: rest))%string.
    now rewrite !append_assoc.
Qed.

Lemma printable_free_of_newline (s : string) :
  str_all is_printable s = true -> free_of json.newline s = true.
Proof. apply str_all_impl, printable_not_newline. Qed.

Lemma manifest_lines_free_of_newline (era : string) (height : Z)
    (hash sha t : string) (size : Z) (g : bool) :
  Forall (fun s => free_of json.newline s = true)
    (manifest_lines (json.encode_str era) (str_of_int height) hash sha t
       size g ++ [""]).
Proof.
  unfold manifest_lines, member_line. cbn [app].
  repeat constructor; apply printable_free_of_newline;
    rewrite ?str_all_app, ?encode_str_printable, ?str_of_int_printable;
    try reflexivity.
  now destruct g.
Qed.

Section MainProperties.

Variable cbor2_load : list byte -> option pyval.
Variable now : datetime.

Lemma main_of_manifest (args : cli.Namespace) (m : pyval) :
  generate_manifest cbor2_load now (cli.snapshot args) (cli.era args)
    (cli.block_hash args) (cli.block_height args) = Ok m ->
  cli.main cbor2_load now args =
  match json.dumps m 4 with
  | Ok text => cli.Printed (text ++ String json.newline "")
  | Raise e => cli.Failed e
  end.
Proof. intros Hm. unfold cli.main. now rewrite Hm. Qed.


(** X11.  In the fallback path [main] never fails: for a readable file
    and any options it prints the manifest, which is eleven lines, each
    ended by a new line, whatever the options hold (a new line in an
    option is escaped): the braces, and between them the nine members in
    order, one a line, indented by four spaces. *)
Theorem main_prints_fallback_manifest (args : cli.Namespace)
    (content : list byte) :
  file (cli.snapshot args) = Readable content ->
  parse_cbor_header cbor2_load (cli.snapshot args)
    (st_size (cli.snapshot args)) = Ok None ->
  exists text era height hash,
    cli.main cbor2_load now args = cli.Printed text /\
    generate_manifest cbor2_load now (cli.snapshot args) (cli.era args)
      (cli.block_hash args) (cli.block_height args)
    = Ok (manifest_dict (PStr era) (PInt height) hash (sha256_hex content)
            (strftime now) (st_size (cli.snapshot args)) false) /\
    split json.newline text
    = manifest_lines (json.encode_str era) (str_of_int height) hash
        (sha256_hex content) (strftime now) (st_size (cli.snapshot args))
        false ++ [""].
Proof.
  intros Hf Hp.
  pose proof (generate_manifest_fallback cbor2_load now _ _ (cli.era args)
                (cli.block_hash args) (cli.block_height args) Hf Hp) as Hm.
  eexists _, _, _, _. split; [|split; [exact Hm|]].
  - rewrite (main_of_manifest _ _ Hm), dumps_manifest_dict.
    cbn [json.encode]. reflexivity.
  - rewrite <- join_snoc_empty by discriminate.
    apply split_join; [discriminate|].
    apply manifest_lines_free_of_newline.
Qed.


(** X13.  What [main] prints is printable ASCII and new lines, whatever
    the header, the file name and the options hold: every other character
    is written as an escape. *)
Theorem main_output_ascii (args : cli.Namespace) (text : string) :
  cli.main cbor2_load now args = cli.Printed text ->
  str_all is_output_char text = true.
Proof.
  unfold cli.main.
  destruct (generate_manifest cbor2_load now (cli.snapshot args)
              (cli.era args) (cli.block_hash args) (cli.block_height args))
    as [m|e]; cbn [bind]; [|discriminate].
  destruct (json.dumps m 4) as [t|e] eqn:Ht; [|discriminate].
  intros Hprinted.
  replace text with (t ++ String json.newline "")%string by congruence.
  rewrite str_all_app, (encode_output_chars _ _ _ _ Ht). reflexivity.
Qed.

End MainProperties.

Lemma main_prints_fallback_manifest_witness :
  exists text,
    cli.main cbor2.load noon
      (command_line (file_named "5.ab.cbor" [])
         (Some (String json.newline "era")) (Some "AB") None)
    = cli.Printed text /\
    List.length (split json.newline text) = 12%nat.
Proof.
  destruct (main_prints_fallback_manifest cbor2.load noon
              (command_line (file_named "5.ab.cbor" [])
                 (Some (String json.newline "era")) (Some "AB") None)
              [] eq_refl eq_refl)
    as (text & era & height & hash & Hmain & _ & Hlines).
  exists text. split; [exact Hmain|].
  rewrite Hlines. reflexivity.
Defined.


Lemma main_output_ascii_witness :
  exists text,
    cli.main cbor2.load noon
      (command_line (file_named "5.ab.cbor" [])
         (Some (String (chr 233) "re")) None None)
    = cli.Printed text /\
    str_all is_output_char text = true.
Proof.
  destruct (cli.main cbor2.load noon
              (command_line (file_named "5.ab.cbor" [])
                 (Some (String (chr 233) "re")) None None))
    as [text|e] eqn:Hmain.
  - exists text. split; [reflexivity|].
    exact (main_output_ascii cbor2.load noon _ _ Hmain).
  - exfalso. vm_compute in Hmain. discriminate.
Defined.

(** ** The time stamp, read back *)

Lemma digit_char_inj (a b : Z) :
  digit_char a = digit_char b -> a mod 10 = b mod 10.
Proof.
  intros H. apply (f_equal digit_of) in H.
  destruct (digit_char_facts a) as (Ha & _).
  destruct (digit_char_facts b) as (Hb & _).
  congruence.
Qed.

Lemma two_digits_inj (a b : Z) :
  0 <= a <= 99 -> 0 <= b <= 99 -> fmt_02 a = fmt_02 b -> a = b.
Proof.
  intros Ha Hb H. unfold fmt_02 in H.
  injection H as H1 H0.
  apply digit_char_inj in H1, H0.
  Z.div_mod_to_equations. lia.
Qed.

Lemma four_digits_inj (a b : Z) :
  1000 <= a <= 9999 -> 1000 <= b <= 9999 -> fmt_Y a = fmt_Y b -> a = b.
Proof.
  intros Ha Hb H. unfold fmt_Y in H.
  rewrite !decimal_four_digits in H by lia.
  injection H as H3 H2 H1 H0.
  apply digit_char_inj in H3, H2, H1, H0.
  Z.div_mod_to_equations. lia.
Qed.

(** X14.  The created_at of a manifest determines the time of the call
    to the second: two valid times with the same time stamp are the
    same. *)
Theorem created_at_determines_time (t1 t2 : datetime) :
  datetime_ok t1 = true -> datetime_ok t2 = true ->
  strftime t1 = strftime t2 -> t1 = t2.
Proof.
  intros H1 H2 Heq. unfold datetime_ok in H1, H2.
  repeat (apply andb_prop in H1 as [H1 ?]).
  repeat (apply andb_prop in H2 as [H2 ?]).
  repeat match goal with
         | H : (_ <=? _) = true |- _ => apply Z.leb_le in H
         end.
  destruct t1 as [y1 m1 d1 h1 mi1 s1], t2 as [y2 m2 d2 h2 mi2 s2].
  cbn [year month day hour minute second] in *.
  unfold strftime in Heq. cbn [year month day hour minute second] in Heq.
  assert (Hy : fmt_Y y1 = fmt_Y y2 /\
               fmt_02 m1 = fmt_02 m2 /\ fmt_02 d1 = fmt_02 d2 /\
               fmt_02 h1 = fmt_02 h2 /\ fmt_02 mi1 = fmt_02 mi2 /\
               fmt_02 s1 = fmt_02 s2).
  { unfold fmt_Y in *. rewrite !decimal_four_digits in * by lia.
    unfold fmt_02 in *. cbn [String.append] in Heq.
    injection Heq as E1 E2 E3 E4 E5 E6 E7 E8 E9 E10 E11 E12 E13 E14.
    repeat split; congruence. }
  destruct Hy as (Ey & Em & Ed & Eh & Emi & Es).
  apply four_digits_inj in Ey; [|lia|lia].
  apply two_digits_inj in Em, Ed, Eh, Emi, Es; try lia.
  now subst.
Qed.

Lemma created_at_determines_time_witness :
  datetime_ok noon = true /\
  strftime noon = "2025-03-09T12:00:07Z" /\
  {| year := 2025; month := 3; day := 9;
     hour := 12; minute := 0; second := 7 |} = noon.
Proof.
  split; [reflexivity|]. split; [reflexivity|].
  apply (created_at_determines_time
           {| year := 2025; month := 3; day := 9;
              hour := 12; minute := 0; second := 7 |} noon); reflexivity.
Defined.
